(** * Student report model: assignments, courses, students

    A shallow embedding of the three classes of the student-report script
    ([Assignment], [Course], [Student]) and of the Python primitives their
    methods rely on.

    Numbers.  The values held by the objects (scores, weights) are
    rationals [Qc]; every Python [int] and [float] is one.  The methods in
    the class modules compute on them exactly: the shape of every formula,
    the order of the accumulations, the tests on zero and the exceptions
    are as in the source, and rounding is left out.  Where the outcome of
    a method turns on rounding (the zero guards and the thresholds of
    [check_progression] and [calculate_gpa]) the method is also given over
    an arbitrary arithmetic, [Computed], whose instances are the exact
    arithmetic and Python's own ([Binary64]: unbounded [int], binary64
    [float]).  Counters that the source keeps as [int] ([total_sessions],
    the number of "Present" records) are [Z].

    Exceptions.  A Python expression either evaluates or raises; methods
    return [result A], and the only exception the arithmetic of this
    program can raise is [ZeroDivisionError]. *)

From Stdlib Require Import QArith Qcanon ZArith Floats.
From stdpp Require Import base decidable numbers list sorting strings pretty gmap.

Local Open Scope Qc_scope.

(** ** Python primitives *)

Module Py.

Inductive exn : Type :=
| ZeroDivisionError.

Inductive result (A : Type) : Type :=
| Ok (a : A)
| Raise (e : exn).
Global Arguments Ok {A} a.
Global Arguments Raise {A} e.

Global Instance result_ret : MRet result := @Ok.
Global Instance result_bind : MBind result := λ A B f m,
  match m with
  | Ok a => f a
  | Raise e => Raise e
  end.

(** A numeric literal of the source, such as [100] or [30]. *)
Definition lit (n : Z) : Qc := Qc_of_Z n.

(** [x / y]: true division, raising on a zero divisor. *)
Definition truediv (x y : Qc) : result Qc :=
  if decide (y = 0) then Raise ZeroDivisionError else Ok (x / y).

(** Truth value of a number in a condition ([if total_weight]). *)
Definition truthy (x : Qc) : bool := bool_decide (x ≠ 0).

(** [for x in l: s = body(s, x)], stopping at the first exception. *)
Fixpoint for_in {A S : Type} (l : list A) (body : S → A → result S) (s : S)
  : result S :=
  match l with
  | [] => Ok s
  | x :: l' => s' ← body s x; for_in l' body s'
  end.

(** [[f(x) for x in l if c(x)]], also the generator expression. *)
Fixpoint comprehension {A B : Type} (f : A → B) (c : A → bool) (l : list A)
  : list B :=
  match l with
  | [] => []
  | x :: l' =>
      if c x then f x :: comprehension f c l' else comprehension f c l'
  end.

(** The newline character of the string literals. *)
Definition nl : string := String (Ascii.ascii_of_nat 10) "".

(** [s * n] on strings. *)
Fixpoint str_mul (s : string) (n : nat) : string :=
  match n with
  | O => ""
  | S n' => s +:+ str_mul s n'
  end.

(** [sum(g)] over integers: a left-to-right accumulation from [0]. *)
Definition sum (l : list Z) : Z := foldl Z.add 0%Z l.

(** [sorted(l, key=key, reverse=reverse)].  The built-in sort is stable;
    with [reverse=True] the list is reversed, sorted and reversed again,
    which keeps equal keys in their original order. *)
Section sorted.
Context {A : Type} (key : A → Qc).

Fixpoint insert_sorted (x : A) (l : list A) : list A :=
  match l with
  | [] => [x]
  | y :: l' =>
      if decide (key x ≤ key y) then x :: y :: l'
      else y :: insert_sorted x l'
  end.

Fixpoint sort (l : list A) : list A :=
  match l with
  | [] => []
  | x :: l' => insert_sorted x (sort l')
  end.

Definition sorted (reverse : bool) (l : list A) : list A :=
  if reverse then list.reverse (sort (list.reverse l)) else sort l.
End sorted.

End Py.

Import Py.

(** ** class Assignment *)

Module Assignment.

Record t : Type := mk {
  name : string;
  score : Qc;
  weight : Qc;
  assignment_type : string  (* 'Formative' or 'Summative' *)
}.

Definition get_weighted_score (self : t) : result Qc :=
  truediv (score self * weight self) (lit 100).

End Assignment.

(** ** class Course *)

Module Course.

Record t : Type := mk {
  name : string;
  assignments : list Assignment.t;
  attendance : list (string * string);  (* (date, status) *)
  total_sessions : Z
}.

Definition init (name : string) (total_sessions : Z) : t :=
  mk name [] [] total_sessions.

Definition add_assignment (self : t) (assignment : Assignment.t) : t :=
  mk (name self) (assignments self ++ [assignment]) (attendance self)
     (total_sessions self).

Definition mark_attendance (self : t) (date status : string) : t :=
  mk (name self) (assignments self) (attendance self ++ [(date, status)])
     (total_sessions self).

Definition calculate_attendance (self : t) : result Qc :=
  let total_present :=
    sum (comprehension (λ _, 1%Z)
           (λ '(_, status), bool_decide (status = "Present"))
           (attendance self)) in
  q ← truediv (Qc_of_Z total_present) (Qc_of_Z (total_sessions self));
  Ok (q * lit 100).

Definition calculate_group_score (self : t) (group_type : string)
  : result (Qc * Qc) :=
  for_in (assignments self)
    (λ '(total_weight, total_weighted_score) assignment,
       if decide (Assignment.assignment_type assignment = group_type) then
         let total_weight := total_weight + Assignment.weight assignment in
         ws ← Assignment.get_weighted_score assignment;
         Ok (total_weight, total_weighted_score + ws)
       else Ok (total_weight, total_weighted_score))
    (0, 0).

Definition check_progression (self : t) : result (bool * Qc * Qc) :=
  '(formative_weight, formative_score) ←
    calculate_group_score self "Formative";
  '(summative_weight, summative_score) ←
    calculate_group_score self "Summative";
  formative_total ←
    (if truthy formative_weight
     then q ← truediv formative_score formative_weight; Ok (q * lit 100)
     else Ok 0);
  summative_total ←
    (if truthy summative_weight
     then q ← truediv summative_score summative_weight; Ok (q * lit 100)
     else Ok 0);
  let pass_formative := bool_decide (lit 30 ≤ formative_total) in
  let pass_summative := bool_decide (lit 20 ≤ summative_total) in
  let passed := pass_formative && pass_summative in
  Ok (passed, formative_total, summative_total).

Definition get_resubmission_candidates (self : t) : list string :=
  comprehension Assignment.name
    (λ assignment,
       bool_decide (Assignment.score assignment < lit 50)
       && bool_decide (Assignment.assignment_type assignment = "Formative"))
    (assignments self).

Definition generate_transcript (self : t) (sort_order : string)
  : list Assignment.t :=
  sorted Assignment.score (bool_decide (sort_order = "descending"))
    (assignments self).

End Course.

(** ** class Student *)

Module Student.

Record t : Type := mk {
  name : string;
  email : string;
  courses : list Course.t
}.

Definition add_course (self : t) (course : Course.t) : t :=
  mk (name self) (email self) (courses self ++ [course]).

Definition calculate_gpa (self : t) : result Qc :=
  '(total_weighted_score, total_weight) ←
    for_in (courses self)
      (λ acc course,
         for_in (Course.assignments course)
           (λ '(total_weighted_score, total_weight) assignment,
              ws ← Assignment.get_weighted_score assignment;
              Ok (total_weighted_score + ws,
                  total_weight + Assignment.weight assignment))
           acc)
      (0, 0);
  if truthy total_weight
  then q ← truediv total_weighted_score total_weight; Ok (q * lit 100)
  else Ok 0.

(** [generate_report].  The three rendering functions of the source are
    parameters: [fmt_2f x] is [f"{x:.2f}"], [str x] is [f"{x}"] and
    [tabulate rows headers] is the grid table of the [tabulate] package.
    The locals [overall_score], [total_weight] and [total_courses] of the
    source are never read and are left out. *)
Section report.
Context (fmt_2f str : Qc → string)
        (tabulate : list (list string) → list string → string).

(** The locals that the loop over the courses updates. *)
Record locals : Type := mk_locals {
  report : string;
  table_data : list (list string);
  total_weighted_score_all_courses : Qc;
  total_weight_all_courses : Qc
}.

Definition course_body (sort_order : string) (st : locals)
  (course : Course.t) : result locals :=
  let 'mk_locals report table_data total_weighted_score_all_courses
         total_weight_all_courses := st in
  '(passed, formative_total, summative_total) ←
    Course.check_progression course;
  let resubmissions := Course.get_resubmission_candidates course in
  attendance_percentage ← Course.calculate_attendance course;
  let report := report
    +:+ (nl +:+ "Course: " +:+ Course.name course +:+ nl) in
  let report := report
    +:+ ("Formative Group Total: " +:+ fmt_2f formative_total
         +:+ "%" +:+ nl) in
  let report := report
    +:+ ("Summative Group Total: " +:+ fmt_2f summative_total
         +:+ "%" +:+ nl) in
  let report := report
    +:+ (("Passed: " +:+ (if passed : bool then "Yes" else "No"))
         +:+ nl) in
  let report :=
    match resubmissions with
    | _ :: _ =>
        report +:+ ("Eligible for Resubmission: "
                    +:+ String.concat ", " resubmissions +:+ nl)
    | [] => report +:+ ("No Resubmissions Needed." +:+ nl)
    end in
  let report := report
    +:+ ("Attendance: " +:+ fmt_2f attendance_percentage
         +:+ "%" +:+ nl) in
  let report :=
    if decide (attendance_percentage = lit 100)
    then report +:+ ("Attendance is in good standing (100%)." +:+ nl)
    else report
      +:+ ("Warning: Attendance is below 100%. "
           +:+ "The student should attend more classes." +:+ nl) in
  let report := report +:+ (nl +:+ "Transcript Breakdown:" +:+ nl) in
  let report := report
    +:+ tabulate
          ((λ assignment,
              [ Assignment.name assignment;
                Assignment.assignment_type assignment;
                str (Assignment.score assignment) +:+ "%";
                str (Assignment.weight assignment) +:+ "%" ])
           <$> Course.generate_transcript course sort_order)
          ["Assignment"; "Type"; "Score (%)"; "Weight (%)"] in
  let report := report +:+ (nl +:+ str_mul "-" 60 +:+ nl) in
  for_in (Course.assignments course)
    (λ st assignment,
       let 'mk_locals report table_data total_weighted_score_all_courses
              total_weight_all_courses := st in
       ws ← Assignment.get_weighted_score assignment;
       let table_data := table_data ++
         [[ Course.name course;
            Assignment.name assignment;
            str (Assignment.score assignment) +:+ "%";
            str (Assignment.weight assignment) +:+ "%";
            fmt_2f ws +:+ "%" ]] in
       ws ← Assignment.get_weighted_score assignment;
       Ok (mk_locals report table_data
             (total_weighted_score_all_courses + ws)
             (total_weight_all_courses + Assignment.weight assignment)))
    (mk_locals report table_data total_weighted_score_all_courses
       total_weight_all_courses).

(** The two lines of the overall summary. *)
Definition overall_lines (gpa overall_avg_score : Qc) : string :=
  (nl +:+ "Overall GPA: " +:+ fmt_2f gpa +:+ "%" +:+ nl)
  +:+ ("Overall Average Score: " +:+ fmt_2f overall_avg_score
       +:+ "%" +:+ nl).

Definition generate_report (self : t) (sort_order : string)
  : result string :=
  let report :=
    "Report for " +:+ name self +:+ " (" +:+ email self +:+ ")" +:+ nl in
  let report := report +:+ (str_mul "=" 40 +:+ nl) in
  '(mk_locals report table_data total_weighted_score_all_courses
      total_weight_all_courses) ←
    for_in (courses self) (course_body sort_order)
      (mk_locals report [] 0 0);
  gpa ← calculate_gpa self;
  overall_avg_score ←
    (if truthy total_weight_all_courses
     then q ← truediv total_weighted_score_all_courses
                total_weight_all_courses;
          Ok (q * lit 100)
     else Ok 0);
  let report := report +:+ overall_lines gpa overall_avg_score in
  let report := report +:+ (str_mul "=" 40 +:+ nl) in
  let report := report +:+ (nl +:+ "Detailed Report:" +:+ nl) in
  let report := report
    +:+ tabulate table_data
          ["Course"; "Assignment"; "Score"; "Weight"; "Weighted Score"] in
  Ok report.
End report.

End Student.

(** ** Course objects in the store

    Python lists are mutable objects held by reference.  For the methods
    whose effect on the object matters, a course is a [CourseObj] in a
    store of objects: its two lists live at their own locations, and
    [view] reads the object graph back as a [Course.t] value. *)

Module Object.

Definition loc : Type := positive.

Inductive obj : Type :=
| List (items : list Assignment.t)
| Attendance (items : list (string * string))
| CourseObj (name : string) (assignments attendance : loc)
    (total_sessions : Z).

Abbreviation store := (gmap loc obj).

(** Creation of a new object, at a location not in use. *)
Definition alloc (o : obj) (h : store) : loc * store :=
  let l := fresh (dom h) in (l, <[l := o]> h).

(** [Course(name, total_sessions)] *)
Definition init (name : string) (total_sessions : Z) (h : store)
  : loc * store :=
  let '(assignments, h) := alloc (List []) h in
  let '(attendance, h) := alloc (Attendance []) h in
  alloc (CourseObj name assignments attendance total_sessions) h.

Definition view (h : store) (self : loc) : option Course.t :=
  match h !! self with
  | Some (CourseObj name la lt total_sessions) =>
      match h !! la, h !! lt with
      | Some (List assignments), Some (Attendance attendance) =>
          Some (Course.mk name assignments attendance total_sessions)
      | _, _ => None
      end
  | _ => None
  end.

(** [self.assignments.append(assignment)]: the list object is updated in
    place. *)
Definition add_assignment (self : loc) (assignment : Assignment.t)
  (h : store) : option store :=
  match h !! self with
  | Some (CourseObj _ la _ _) =>
      match h !! la with
      | Some (List items) => Some (<[la := List (items ++ [assignment])]> h)
      | _ => None
      end
  | _ => None
  end.

Definition mark_attendance (self : loc) (date status : string)
  (h : store) : option store :=
  match h !! self with
  | Some (CourseObj _ _ lt _) =>
      match h !! lt with
      | Some (Attendance items) =>
          Some (<[lt := Attendance (items ++ [(date, status)])]> h)
      | _ => None
      end
  | _ => None
  end.

(** [sorted(self.assignments, ...)] builds a new list object and the
    method returns a reference to it. *)
Definition generate_transcript (self : loc) (sort_order : string)
  (h : store) : option (loc * store) :=
  match h !! self with
  | Some (CourseObj _ la _ _) =>
      match h !! la with
      | Some (List items) =>
          Some (alloc
                  (List (sorted Assignment.score
                           (bool_decide (sort_order = "descending")) items))
                  h)
      | _ => None
      end
  | _ => None
  end.

End Object.

(** ** Sending the report

    [send_report_to_parent] talks to the mail library.  The library is a
    parameter: [smtp] tells, for each call and the calls made before it,
    whether the call returns or raises ([Some e], with [e] the text of the
    exception, [str(e)]), and [as_string] renders a message from its
    headers and its plain-text part.  The method leaves two traces: the
    calls it made, in order, and the lines it printed. *)

Module Delivery.

Inductive smtp_call : Type :=
| SMTP (host : string) (port : Z)
| starttls
| login (user password : string)
| sendmail (from_addr to_addrs msg : string)
| quit.

Record effects : Type := mk_effects {
  calls : list smtp_call;
  printed : list string
}.

(** A computation inside the [try] block: it extends the list of calls
    and either returns or raises an exception with a text. *)
Definition attempt (A : Type) : Type :=
  (list smtp_call → option string) → list smtp_call
  → list smtp_call * (string + A).

Global Instance attempt_ret : MRet attempt := λ A a _ made, (made, inr a).
Global Instance attempt_bind : MBind attempt := λ A B f m outcome made,
  match m outcome made with
  | (made, inr a) => f a outcome made
  | (made, inl e) => (made, inl e)
  end.

Definition call (c : smtp_call) : attempt unit := λ outcome made,
  (made ++ [c],
   match outcome (made ++ [c]) with
   | None => inr ()
   | Some e => inl e
   end).

Section send.
Context (fmt_2f str : Qc → string)
        (tabulate : list (list string) → list string → string)
        (as_string : list (string * string) → string → string)
        (smtp : list smtp_call → option string).

Definition send_report_to_parent (self : Student.t)
  (parent_email sender_email app_password sort_order : string)
  : result effects :=
  report ← Student.generate_report fmt_2f str tabulate self sort_order;
  let msg :=
    as_string
      [ ("From", sender_email); ("To", parent_email);
        ("Subject", "Student Report for " +:+ Student.name self) ]
      report in
  let '(made, outcome) :=
    (call (SMTP "smtp.gmail.com" 587);;
     call starttls;;
     call (login sender_email app_password);;
     call (sendmail sender_email parent_email msg);;
     call quit;;
     mret ("Report sent to " +:+ parent_email)) smtp [] in
  match outcome with
  | inr line => Ok (mk_effects made [line])
  | inl e => Ok (mk_effects made ["Failed to send email: " +:+ e])
  end.
End send.

End Delivery.

(** ** The layout of the report *)

Module Layout.

(** [part] occurs in [whole]. *)
Definition occurs_in (part whole : string) : Prop :=
  ∃ pre post : string, whole = pre +:+ part +:+ post.

Definition good_standing : string :=
  "Attendance is in good standing (100%)." +:+ nl.

Definition warning : string :=
  "Warning: Attendance is below 100%. "
  +:+ "The student should attend more classes." +:+ nl.

(** The rows that one course contributes to the detailed table. *)
Definition detailed_rows (fmt_2f str : Qc → string) (c : Course.t)
  : list (list string) :=
  (λ a, [ Course.name c;
          Assignment.name a;
          str (Assignment.score a) +:+ "%";
          str (Assignment.weight a) +:+ "%";
          fmt_2f (Assignment.score a * Assignment.weight a / lit 100)
          +:+ "%" ])
  <$> Course.assignments c.

End Layout.

(** ** Arithmetic

    What the methods need of their numbers: how a value of the data or of
    the program text is read, the three operations, the test on zero (used
    by [if total_weight] and by [/] to raise) and the comparison [>=].
    Nothing is assumed of the operations beyond the two facts the code
    relies on: [0] is zero and [100] is not. *)

Module Number.

Class ops (num : Type) : Type := mk {
  read : Qc → num;
  add : num → num → num;
  mul : num → num → num;
  quotient : num → num → num;
  is_zero : num → bool;
  ge : num → num → bool;
  zero_is_zero : is_zero (read 0) = true;
  hundred_not_zero : is_zero (read (lit 100)) = false
}.
Global Hint Mode ops ! : typeclass_instances.

(** Exact arithmetic on the rationals. *)
Global Instance exact : ops Qc.
Proof.
  refine {| read := λ q, q;
            add := Qcplus;
            mul := Qcmult;
            quotient := Qcdiv;
            is_zero := λ x, bool_decide (x = 0);
            ge := λ x y, bool_decide (y ≤ x) |}.
  - reflexivity.
  - apply bool_decide_eq_false. intros H.
    apply (f_equal this) in H. discriminate H.
Defined.

End Number.

(** ** Python's numbers

    An [int] is unbounded and its sums and products are exact; a [float]
    is a binary64 number; an operation with a [float] operand converts the
    other operand and rounds to nearest, ties to even; [/] always gives a
    [float], correctly rounded.  A value with denominator 1 is read as an
    [int], any other value as the nearest [float], as a decimal literal
    is.  (The comparison of an [int] with a [float] converts the [int],
    which is exact below 2^53; an [int] beyond the range of binary64,
    which Python refuses to convert, is outside the model.) *)

Module Binary64.

Inductive pynum : Type :=
| PInt (z : Z)
| PFloat (f : float).

Definition exact_mantissa (z : Z) : spec_float :=
  match z with
  | Z0 => S754_zero false
  | Zpos m => S754_finite false m 0
  | Zneg m => S754_finite true m 0
  end.

(** The binary64 number nearest to [n / d]. *)
Definition nearest (n d : Z) : float :=
  SF2Prim (SFdiv prec emax (exact_mantissa n) (exact_mantissa d)).

Definition to_float (x : pynum) : float :=
  match x with
  | PInt z => nearest z 1
  | PFloat f => f
  end.

Definition read (q : Qc) : pynum :=
  match Qden q with
  | xH => PInt (Qnum q)
  | d => PFloat (nearest (Qnum q) (Zpos d))
  end.

Definition add (x y : pynum) : pynum :=
  match x, y with
  | PInt a, PInt b => PInt (a + b)
  | _, _ => PFloat (PrimFloat.add (to_float x) (to_float y))
  end.

Definition mul (x y : pynum) : pynum :=
  match x, y with
  | PInt a, PInt b => PInt (a * b)
  | _, _ => PFloat (PrimFloat.mul (to_float x) (to_float y))
  end.

Definition quotient (x y : pynum) : pynum :=
  match x, y with
  | PInt a, PInt b => PFloat (nearest a b)
  | _, _ => PFloat (PrimFloat.div (to_float x) (to_float y))
  end.

Definition is_zero (x : pynum) : bool :=
  match x with
  | PInt z => Z.eqb z 0
  | PFloat f => PrimFloat.eqb f (nearest 0 1)
  end.

Definition ge (x y : pynum) : bool :=
  match x, y with
  | PInt a, PInt b => Z.leb b a
  | _, _ => PrimFloat.leb (to_float y) (to_float x)
  end.

Global Instance ops : Number.ops pynum.
Proof.
  refine {| Number.read := read;
            Number.add := add;
            Number.mul := mul;
            Number.quotient := quotient;
            Number.is_zero := is_zero;
            Number.ge := ge |}; reflexivity.
Defined.

End Binary64.

(** ** The methods over an arithmetic

    [get_weighted_score], [calculate_group_score], [check_progression] and
    [calculate_gpa] once more, statement by statement, with the operations
    of a [Number.ops] in place of the exact ones. *)

Module Computed.

Section methods.
Context {num : Type} `{!Number.ops num}.

Definition truediv (x y : num) : result num :=
  if Number.is_zero y then Raise ZeroDivisionError
  else Ok (Number.quotient x y).

Definition truthy (x : num) : bool := negb (Number.is_zero x).

Definition get_weighted_score (self : Assignment.t) : result num :=
  truediv
    (Number.mul (Number.read (Assignment.score self))
       (Number.read (Assignment.weight self)))
    (Number.read (lit 100)).

Definition calculate_group_score (self : Course.t) (group_type : string)
  : result (num * num) :=
  for_in (Course.assignments self)
    (λ '(total_weight, total_weighted_score) assignment,
       if decide (Assignment.assignment_type assignment = group_type) then
         let total_weight :=
           Number.add total_weight
             (Number.read (Assignment.weight assignment)) in
         ws ← get_weighted_score assignment;
         Ok (total_weight, Number.add total_weighted_score ws)
       else Ok (total_weight, total_weighted_score))
    (Number.read 0, Number.read 0).

Definition check_progression (self : Course.t)
  : result (bool * num * num) :=
  '(formative_weight, formative_score) ←
    calculate_group_score self "Formative";
  '(summative_weight, summative_score) ←
    calculate_group_score self "Summative";
  formative_total ←
    (if truthy formative_weight
     then q ← truediv formative_score formative_weight;
          Ok (Number.mul q (Number.read (lit 100)))
     else Ok (Number.read 0));
  summative_total ←
    (if truthy summative_weight
     then q ← truediv summative_score summative_weight;
          Ok (Number.mul q (Number.read (lit 100)))
     else Ok (Number.read 0));
  let pass_formative := Number.ge formative_total (Number.read (lit 30)) in
  let pass_summative := Number.ge summative_total (Number.read (lit 20)) in
  let passed := pass_formative && pass_summative in
  Ok (passed, formative_total, summative_total).

Definition calculate_gpa (self : Student.t) : result num :=
  '(total_weighted_score, total_weight) ←
    for_in (Student.courses self)
      (λ acc course,
         for_in (Course.assignments course)
           (λ '(total_weighted_score, total_weight) assignment,
              ws ← get_weighted_score assignment;
              Ok (Number.add total_weighted_score ws,
                  Number.add total_weight
                    (Number.read (Assignment.weight assignment))))
           acc)
      (Number.read 0, Number.read 0);
  if truthy total_weight
  then q ← truediv total_weighted_score total_weight;
       Ok (Number.mul q (Number.read (lit 100)))
  else Ok (Number.read 0).

(** The quantities the statements speak of: a sum accumulated from [0] in
    the order of the list, and the weighted score of one assignment. *)
Definition accumulate (l : list num) : num :=
  foldl Number.add (Number.read 0) l.

Definition weight (a : Assignment.t) : num :=
  Number.read (Assignment.weight a).

Definition weighted (a : Assignment.t) : num :=
  Number.quotient
    (Number.mul (Number.read (Assignment.score a))
       (Number.read (Assignment.weight a)))
    (Number.read (lit 100)).
End methods.

End Computed.

(** ** The aggregates the specification speaks of

    Sums over a group of assignments, written as the specification words
    them (a sum over the selected assignments), to be compared with the
    accumulating loops of the methods. *)

Module Spec.

Definition total (l : list Qc) : Qc := foldr Qcplus 0 l.

Definition weighted (a : Assignment.t) : Qc :=
  Assignment.score a * Assignment.weight a / lit 100.

Definition weight_sum (l : list Assignment.t) : Qc :=
  total (Assignment.weight <$> l).

Definition weighted_sum (l : list Assignment.t) : Qc :=
  total (weighted <$> l).

Definition of_type (ty : string) (l : list Assignment.t)
  : list Assignment.t :=
  filter (λ a, Assignment.assignment_type a = ty) l.

(** weighted-score sum / weight sum × 100, and 0 for a zero weight sum *)
Definition percentage (l : list Assignment.t) : Qc :=
  if decide (weight_sum l = 0) then 0
  else weighted_sum l / weight_sum l * lit 100.

Definition all_assignments (s : Student.t) : list Assignment.t :=
  concat (Course.assignments <$> Student.courses s).

Definition present_count (c : Course.t) : Z :=
  Z.of_nat (length (filter (λ r, r.2 = "Present") (Course.attendance c))).

Definition resubmittable (a : Assignment.t) : Prop :=
  Assignment.assignment_type a = "Formative"
  ∧ Assignment.score a < lit 50.

Global Instance resubmittable_dec a : Decision (resubmittable a).
Proof. unfold resubmittable. apply _. Defined.

End Spec.

(** ** The sample data of the script *)

Definition dec (n : Z) (d : positive) : Qc := Q2Qc (n # d).

Definition course_1 : Course.t :=
  Course.mk "Introduction to Programming and Databases"
    [ Assignment.mk "Python - Hello, World" (lit 100) (lit 10) "Formative";
      Assignment.mk "Python - Inheritance" (dec 4059 100) (lit 20) "Formative";
      Assignment.mk "Python - Data Structures" (lit 100) (lit 30) "Summative" ]
    [ ("Sep 16", "Present"); ("Sep 17", "Present"); ("Sep 18", "Present");
      ("Sep 19", "Present"); ("Sep 20", "Present"); ("Sep 21", "Present");
      ("Sep 22", "Present") ]
    7.

Definition course_2 : Course.t :=
  Course.mk "Self-Leadership and Team Dynamics"
    [ Assignment.mk "Enneagram Test" (lit 80) (lit 10) "Formative";
      Assignment.mk "Empathy Discussion Board" (lit 65) (lit 20) "Formative";
      Assignment.mk "Community Building Quiz" (lit 90) (lit 20) "Summative" ]
    [] 7.

Definition course_3 : Course.t :=
  Course.mk "Introduction to IT Tools and Linux"
    [ Assignment.mk "Pre-reading Sunday 1" (lit 90) (lit 10) "Formative";
      Assignment.mk "Discussion Board" (lit 100) (lit 20) "Formative";
      Assignment.mk "In Call Check-in Quiz 1" (lit 65) (lit 15) "Formative";
      Assignment.mk "Pre-reading Sunday 2" (dec 8333 100) (lit 15) "Formative";
      Assignment.mk "General Quiz" (dec 7551 100) (lit 15) "Formative";
      Assignment.mk "Shell, processes and signals" (lit 100) (lit 25)
        "Summative" ]
    [] 10.

Definition student : Student.t :=
  Student.mk "ISHIMWE Bruno" "i.bruno@alustudent.com"
    [course_1; course_2; course_3].

(** [course_1] with one more assignment: two assignments share the score
    100. *)
Definition course_ties : Course.t :=
  Course.add_assignment course_1
    (Assignment.mk "Python - Recap" (lit 50) (lit 5) "Formative").

(** A course object built in an empty store, with two assignments
    appended in place. *)
Definition store_1 : Object.loc * Object.store :=
  let '(self, h) := Object.init "Linux" 10 ∅ in
  (self,
   default h
     (Object.add_assignment self
        (Assignment.mk "Discussion Board" (lit 100) (lit 20) "Formative") h
      ≫= Object.add_assignment self
           (Assignment.mk "General Quiz" (dec 7551 100) (lit 15) "Formative"))).

(** Renderers to run the report with: a number as [numerator/denominator]
    and a table as lines of cells. *)
Definition show (q : Qc) : string :=
  pretty (Qnum q) +:+ "/" +:+ pretty (Z.pos (Qden q)).

Definition grid (rows : list (list string)) (headers : list string)
  : string :=
  String.concat nl (String.concat " | " <$> (headers :: rows)).

(** A course whose Formative total is 30 in exact arithmetic and just below
    30 in binary64. *)
Definition course_marginal : Course.t :=
  Course.mk "Marginal"
    [ Assignment.mk "First" (lit 2) (lit 7) "Formative";
      Assignment.mk "Second" (lit 58) (lit 7) "Formative";
      Assignment.mk "Final" (lit 100) (lit 30) "Summative" ]
    [] 7.

(** Weights written 0.1, 0.2 and -0.3, the last on an assignment of a type
    that is neither Formative nor Summative. *)
Definition bonus : Assignment.t :=
  Assignment.mk "Bonus" (lit 50) (dec (-3) 10) "Bonus".

Definition course_cancelling : Course.t :=
  Course.mk "Cancelling"
    [ Assignment.mk "First" (lit 100) (dec 1 10) "Formative";
      Assignment.mk "Second" (lit 100) (dec 2 10) "Formative" ]
    [] 7.

Definition student_cancelling : Student.t :=
  Student.mk "ISHIMWE Bruno" "i.bruno@alustudent.com"
    [Course.add_assignment course_cancelling bonus].

(** A student without assignments, and one whose weights 10 and -10 add
    up to 0. *)
Definition student_empty : Student.t :=
  Student.add_course (Student.mk "ISHIMWE Bruno" "i.bruno@alustudent.com" [])
    (Course.init "Linux" 10).

Definition student_offsetting : Student.t :=
  Student.mk "ISHIMWE Bruno" "i.bruno@alustudent.com"
    [ Course.mk "Linux"
        [ Assignment.mk "Quiz" (lit 80) (lit 10) "Formative";
          Assignment.mk "Credit" (lit 90) (lit (-10)) "Formative" ]
        [] 10 ].

(** A mail library to run the delivery with: a message as header lines
    followed by the text, and a server that accepts every call. *)
Definition mime (headers : list (string * string)) (body : string) : string :=
  String.concat nl ((λ '(k, v), k +:+ ": " +:+ v) <$> headers)
  +:+ nl +:+ nl +:+ body.

Definition smtp_accepts (made : list Delivery.smtp_call) : option string :=
  None.

(** ** Arithmetic and loop lemmas *)

Ltac qc_closed := apply Qc_is_canon; reflexivity.

Lemma lit_100_neq_0 : lit 100 ≠ 0.
Proof. intros H. apply (f_equal this) in H. discriminate H. Qed.

Lemma truediv_ok (x y : Qc) : y ≠ 0 → truediv x y = Ok (x / y).
Proof. intros Hy. unfold truediv. by rewrite decide_False. Qed.

Lemma truediv_zero (x : Qc) : truediv x 0 = Raise ZeroDivisionError.
Proof. unfold truediv. by rewrite decide_True. Qed.

Lemma truthy_decide (x : Qc) :
  truthy x = if decide (x = 0) then false else true.
Proof.
  unfold truthy. destruct (decide (x = 0)) as [->|Hx].
  - by rewrite bool_decide_false by auto.
  - by rewrite bool_decide_true.
Qed.

(** The guarded quotient of [check_progression] and [calculate_gpa]. *)
Lemma guarded_quotient (num den : Qc) :
  (if truthy den then q ← truediv num den; Ok (q * lit 100) else Ok 0)
  = Ok (if decide (den = 0) then 0 else num / den * lit 100).
Proof.
  rewrite truthy_decide. destruct (decide (den = 0)) as [->|Hd]; [done|].
  by rewrite truediv_ok.
Qed.

Lemma get_weighted_score_ok (a : Assignment.t) :
  Assignment.get_weighted_score a = Ok (Spec.weighted a).
Proof. apply truediv_ok, lit_100_neq_0. Qed.

Lemma total_cons (x : Qc) (l : list Qc) : Spec.total (x :: l) = x + Spec.total l.
Proof. reflexivity. Qed.

Lemma total_app (l1 l2 : list Qc) :
  Spec.total (l1 ++ l2) = Spec.total l1 + Spec.total l2.
Proof.
  unfold Spec.total. induction l1 as [|x l1 IH]; simpl.
  - by rewrite Qcplus_0_l.
  - rewrite IH. ring.
Qed.

Lemma weight_sum_app (l1 l2 : list Assignment.t) :
  Spec.weight_sum (l1 ++ l2) = Spec.weight_sum l1 + Spec.weight_sum l2.
Proof. unfold Spec.weight_sum. by rewrite fmap_app, total_app. Qed.

Lemma weighted_sum_app (l1 l2 : list Assignment.t) :
  Spec.weighted_sum (l1 ++ l2) = Spec.weighted_sum l1 + Spec.weighted_sum l2.
Proof. unfold Spec.weighted_sum. by rewrite fmap_app, total_app. Qed.

(** The loop of [calculate_group_score], started from any accumulators. *)
Lemma group_loop (ty : string) (l : list Assignment.t) (tw tws : Qc) :
  for_in l
    (λ '(total_weight, total_weighted_score) assignment,
       if decide (Assignment.assignment_type assignment = ty) then
         let total_weight := total_weight + Assignment.weight assignment in
         ws ← Assignment.get_weighted_score assignment;
         Ok (total_weight, total_weighted_score + ws)
       else Ok (total_weight, total_weighted_score))
    (tw, tws)
  = Ok (tw + Spec.weight_sum (Spec.of_type ty l),
        tws + Spec.weighted_sum (Spec.of_type ty l)).
Proof.
  revert tw tws. induction l as [|a l IH]; intros tw tws.
  - simpl. unfold Spec.weight_sum, Spec.weighted_sum. simpl.
    by rewrite !Qcplus_0_r.
  - cbn [for_in]. unfold Spec.of_type. rewrite filter_cons.
    destruct (decide (Assignment.assignment_type a = ty)) as [Ha|Ha].
    + cbn zeta. rewrite get_weighted_score_ok. cbn [mbind result_bind].
      fold (Spec.of_type ty l). rewrite IH.
      unfold Spec.weight_sum, Spec.weighted_sum.
      rewrite !fmap_cons, !total_cons. f_equal. f_equal; ring.
    + cbn [mbind result_bind]. fold (Spec.of_type ty l). by rewrite IH.
Qed.

Lemma calculate_group_score_ok (c : Course.t) (ty : string) :
  Course.calculate_group_score c ty
  = Ok (Spec.weight_sum (Spec.of_type ty (Course.assignments c)),
        Spec.weighted_sum (Spec.of_type ty (Course.assignments c))).
Proof.
  unfold Course.calculate_group_score. rewrite group_loop.
  by rewrite !Qcplus_0_l.
Qed.

(** The inner loop of [calculate_gpa], started from any accumulators. *)
Lemma gpa_inner_loop (l : list Assignment.t) (tws tw : Qc) :
  for_in l
    (λ '(total_weighted_score, total_weight) assignment,
       ws ← Assignment.get_weighted_score assignment;
       Ok (total_weighted_score + ws,
           total_weight + Assignment.weight assignment))
    (tws, tw)
  = Ok (tws + Spec.weighted_sum l, tw + Spec.weight_sum l).
Proof.
  revert tws tw. induction l as [|a l IH]; intros tws tw.
  - simpl. unfold Spec.weight_sum, Spec.weighted_sum. simpl.
    by rewrite !Qcplus_0_r.
  - cbn [for_in]. rewrite get_weighted_score_ok. cbn [mbind result_bind].
    rewrite IH. unfold Spec.weight_sum, Spec.weighted_sum.
    rewrite !fmap_cons, !total_cons. f_equal. f_equal; ring.
Qed.

Lemma gpa_outer_loop (cs : list Course.t) (tws tw : Qc) :
  for_in cs
    (λ acc course,
       for_in (Course.assignments course)
         (λ '(total_weighted_score, total_weight) assignment,
            ws ← Assignment.get_weighted_score assignment;
            Ok (total_weighted_score + ws,
                total_weight + Assignment.weight assignment))
         acc)
    (tws, tw)
  = Ok (tws + Spec.weighted_sum (concat (Course.assignments <$> cs)),
        tw + Spec.weight_sum (concat (Course.assignments <$> cs))).
Proof.
  revert tws tw. induction cs as [|c cs IH]; intros tws tw.
  - simpl. unfold Spec.weight_sum, Spec.weighted_sum. simpl.
    by rewrite !Qcplus_0_r.
  - cbn [for_in]. rewrite gpa_inner_loop. cbn [mbind result_bind].
    rewrite IH, fmap_cons, concat_cons, weight_sum_app, weighted_sum_app.
    f_equal. f_equal; ring.
Qed.

Lemma calculate_gpa_ok (s : Student.t) :
  Student.calculate_gpa s = Ok (Spec.percentage (Spec.all_assignments s)).
Proof.
  unfold Student.calculate_gpa. rewrite gpa_outer_loop.
  cbn [mbind result_bind]. rewrite !Qcplus_0_l.
  apply guarded_quotient.
Qed.

(** ** Comprehensions and the attendance count *)

Lemma comprehension_filter {A B : Type} (f : A → B) (c : A → bool)
    (P : A → Prop) `{!∀ x, Decision (P x)} (l : list A) :
  (∀ x, c x = true ↔ P x) →
  comprehension f c l = f <$> filter P l.
Proof.
  intros Hc. induction l as [|x l IH]; [done|].
  cbn [comprehension]. rewrite filter_cons.
  destruct (decide (P x)) as [HP|HP].
  - apply Hc in HP. rewrite HP, fmap_cons. by f_equal.
  - destruct (c x) eqn:Hcx; [by apply Hc in Hcx|done].
Qed.

Lemma filter_none {A : Type} (P : A → Prop) `{!∀ x, Decision (P x)}
    (l : list A) :
  Forall (λ x, ¬ P x) l → filter P l = [].
Proof.
  induction 1 as [|x l Hx Hl IH]; [done|].
  by rewrite filter_cons_False.
Qed.

Lemma foldl_add_ones {A : Type} (l : list A) (acc : Z) :
  foldl Z.add acc ((λ _, 1%Z) <$> l) = (acc + Z.of_nat (length l))%Z.
Proof.
  revert acc. induction l as [|x l IH]; intros acc; simpl.
  - lia.
  - rewrite IH. lia.
Qed.

Lemma total_present_count (c : Course.t) :
  sum (comprehension (λ _, 1%Z)
         (λ '(_, status), bool_decide (status = "Present"))
         (Course.attendance c))
  = Spec.present_count c.
Proof.
  rewrite (comprehension_filter _ _ (λ r, r.2 = "Present")).
  - unfold sum. rewrite foldl_add_ones.
    unfold Spec.present_count. lia.
  - intros [date status]. simpl. apply bool_decide_eq_true.
Qed.

Lemma calculate_attendance_unfold (c : Course.t) :
  Course.calculate_attendance c
  = q ← truediv (Qc_of_Z (Spec.present_count c))
        (Qc_of_Z (Course.total_sessions c));
    Ok (q * lit 100).
Proof. unfold Course.calculate_attendance. by rewrite total_present_count. Qed.

Lemma calculate_attendance_nonzero (c : Course.t) :
  Course.total_sessions c ≠ 0%Z →
  Course.calculate_attendance c
  = Ok (Qc_of_Z (Spec.present_count c) / Qc_of_Z (Course.total_sessions c)
        * lit 100).
Proof.
  intros Hts. rewrite calculate_attendance_unfold, truediv_ok; [done|].
  rewrite <-Z2Qc_inj_0. by intros ?%Z2Qc_inj.
Qed.

Lemma calculate_attendance_zero_sessions (c : Course.t) :
  Course.total_sessions c = 0%Z →
  Course.calculate_attendance c = Raise ZeroDivisionError.
Proof.
  intros Hts. rewrite calculate_attendance_unfold, Hts, Z2Qc_inj_0.
  by rewrite truediv_zero.
Qed.

Lemma Qc_of_Z_pos (d : Z) : (0 < d)%Z → 0 < Qc_of_Z d.
Proof. intros Hd. rewrite <-Z2Qc_inj_0. by rewrite <-Z2Qc_inj_lt. Qed.

Lemma quotient_gt_100 (n d : Z) :
  (0 < d)%Z → (d < n)%Z → lit 100 < Qc_of_Z n / Qc_of_Z d * lit 100.
Proof.
  intros Hd Hn. pose proof (Qc_of_Z_pos d Hd) as Hd'.
  assert (1 < Qc_of_Z n / Qc_of_Z d) as H1.
  { apply (Qcmult_lt_mono_pos_r _ _ (Qc_of_Z d)); [done|].
    rewrite Qcmult_1_l. unfold Qcdiv.
    rewrite <-Qcmult_assoc, Qcmult_inv_l, Qcmult_1_r.
    - by rewrite <-Z2Qc_inj_lt.
    - intros H0. rewrite H0 in Hd'. by apply Qclt_not_eq in Hd'. }
  rewrite <-(Qcmult_1_l (lit 100)) at 1.
  apply Qcmult_lt_compat_r; [|done].
  by apply Qc_of_Z_pos.
Qed.

(** ** The stable sort *)

Section sorted_facts.
Context {A : Type} (key : A → Qc).

Let asc (a b : A) : Prop := key a ≤ key b.
Let desc (a b : A) : Prop := key b ≤ key a.

Lemma insert_sorted_perm (x : A) (l : list A) :
  insert_sorted key x l ≡ₚ x :: l.
Proof.
  induction l as [|y l IH]; [done|]. simpl.
  case_decide; [done|]. by rewrite IH, Permutation_swap.
Qed.

Lemma sort_perm (l : list A) : sort key l ≡ₚ l.
Proof.
  induction l as [|x l IH]; [done|]. simpl.
  by rewrite insert_sorted_perm, IH.
Qed.

Lemma insert_sorted_sorted (x : A) (l : list A) :
  StronglySorted asc l → StronglySorted asc (insert_sorted key x l).
Proof.
  induction l as [|y l IH]; intros Hl; simpl.
  - repeat constructor.
  - apply StronglySorted_cons in Hl as [Hy Hl]. case_decide as Hxy.
    + apply StronglySorted_cons. split.
      * constructor; [done|].
        eapply Forall_impl; [exact Hy|]. intros z Hz. unfold asc in *.
        by trans (key y).
      * by apply StronglySorted_cons.
    + apply StronglySorted_cons. split; [|by apply IH].
      rewrite insert_sorted_perm. constructor; [|done].
      unfold asc. apply Qclt_le_weak. by apply Qclt_nge.
Qed.

Lemma sort_sorted (l : list A) : StronglySorted asc (sort key l).
Proof.
  induction l as [|x l IH]; simpl; [constructor|].
  by apply insert_sorted_sorted.
Qed.

Lemma StronglySorted_rev (R : relation A) (l : list A) :
  StronglySorted R l → StronglySorted (flip R) (reverse l).
Proof.
  induction 1 as [|x l Hl IH Hx]; [constructor|].
  rewrite reverse_cons. apply StronglySorted_app.
  split_and!; [|done|repeat constructor].
  intros a b Ha Hb. apply list_elem_of_singleton in Hb as ->.
  rewrite Forall_forall in Hx. apply Hx. by apply elem_of_reverse.
Qed.

(** Insertion never moves an element past another one of the same key:
    the elements of any given key keep their order. *)
Lemma insert_sorted_stable (v : Qc) (x : A) (l : list A) :
  filter (λ a, key a = v) (insert_sorted key x l)
  = filter (λ a, key a = v) (x :: l).
Proof.
  induction l as [|y l IH]; [done|]. simpl.
  case_decide as Hxy; [done|].
  rewrite filter_cons, IH, !filter_cons.
  destruct (decide (key y = v)) as [Hy|Hy],
           (decide (key x = v)) as [Hx|Hx]; try done.
  exfalso. apply Hxy. rewrite Hx, Hy. reflexivity.
Qed.

Lemma sort_stable (v : Qc) (l : list A) :
  filter (λ a, key a = v) (sort key l) = filter (λ a, key a = v) l.
Proof.
  induction l as [|x l IH]; [done|]. simpl.
  by rewrite insert_sorted_stable, !filter_cons, IH.
Qed.

Lemma sorted_perm (reverse : bool) (l : list A) :
  sorted key reverse l ≡ₚ l.
Proof.
  unfold sorted. destruct reverse; [|apply sort_perm].
  by rewrite reverse_Permutation, sort_perm, reverse_Permutation.
Qed.

Lemma sorted_ascending (l : list A) :
  StronglySorted asc (sorted key false l).
Proof. apply sort_sorted. Qed.

Lemma sorted_descending (l : list A) :
  StronglySorted desc (sorted key true l).
Proof. unfold sorted. apply (StronglySorted_rev asc), sort_sorted. Qed.

Lemma sorted_stable (reverse : bool) (v : Qc) (l : list A) :
  filter (λ a, key a = v) (sorted key reverse l)
  = filter (λ a, key a = v) l.
Proof.
  unfold sorted. destruct reverse; [|apply sort_stable].
  by rewrite filter_reverse, sort_stable, filter_reverse,
    reverse_involutive.
Qed.
End sorted_facts.

(** ** Progression *)

Lemma check_progression_ok (c : Course.t) :
  let formative_total :=
    Spec.percentage (Spec.of_type "Formative" (Course.assignments c)) in
  let summative_total :=
    Spec.percentage (Spec.of_type "Summative" (Course.assignments c)) in
  Course.check_progression c
  = Ok (bool_decide (lit 30 ≤ formative_total)
        && bool_decide (lit 20 ≤ summative_total),
        formative_total, summative_total).
Proof.
  unfold Course.check_progression.
  rewrite !calculate_group_score_ok. cbn [mbind result_bind].
  rewrite !guarded_quotient. reflexivity.
Qed.

(** ** The report *)

Section report_facts.
Context (fmt_2f str : Qc → string)
        (tabulate : list (list string) → list string → string).

Lemma string_app_assoc (s1 s2 s3 : string) :
  (s1 +:+ s2) +:+ s3 = s1 +:+ (s2 +:+ s3).
Proof.
  induction s1 as [|a s1 IH]; [done|].
  exact (f_equal (String a) IH).
Qed.

(** A loop whose body appends one row and adds one assignment to the two
    totals. *)
Lemma rows_loop (row : Qc → Assignment.t → list string)
    (body : Student.locals → Assignment.t → result Student.locals)
    (l : list Assignment.t) (r : string) (td : list (list string))
    (tws tw : Qc) :
  (∀ r td tws tw a,
     body (Student.mk_locals r td tws tw) a
     = Ok (Student.mk_locals r (td ++ [row (Spec.weighted a) a])
             (tws + Spec.weighted a) (tw + Assignment.weight a))) →
  for_in l body (Student.mk_locals r td tws tw)
  = Ok (Student.mk_locals r
          (td ++ ((λ a, row (Spec.weighted a) a) <$> l))
          (tws + Spec.weighted_sum l) (tw + Spec.weight_sum l)).
Proof.
  intros Hbody. revert td tws tw.
  induction l as [|a l IH]; intros td tws tw.
  - simpl. unfold Spec.weight_sum, Spec.weighted_sum. simpl.
    by rewrite app_nil_r, !Qcplus_0_r.
  - cbn [for_in]. rewrite Hbody. cbn [mbind result_bind]. rewrite IH.
    unfold Spec.weight_sum, Spec.weighted_sum.
    rewrite !fmap_cons, !total_cons, <-app_assoc. simpl.
    f_equal. f_equal; ring.
Qed.

(** One course of the report: the block raises exactly when the course
    has no sessions, and otherwise adds the course's assignments to the
    two running totals. *)
Lemma course_body_cases (sort_order : string) (st : Student.locals)
    (c : Course.t) :
  if decide (Course.total_sessions c = 0%Z) then
    Student.course_body fmt_2f str tabulate sort_order st c
    = Raise ZeroDivisionError
  else
    ∃ r td,
      Student.course_body fmt_2f str tabulate sort_order st c
      = Ok (Student.mk_locals r td
              (Student.total_weighted_score_all_courses st
               + Spec.weighted_sum (Course.assignments c))
              (Student.total_weight_all_courses st
               + Spec.weight_sum (Course.assignments c))).
Proof.
  destruct st as [r0 td0 tws0 tw0]. unfold Student.course_body.
  pose proof (check_progression_ok c) as Hp. cbn zeta in Hp. rewrite Hp.
  cbn [mbind result_bind].
  destruct (decide (Course.total_sessions c = 0%Z)) as [Hts|Hts].
  - by rewrite calculate_attendance_zero_sessions.
  - rewrite calculate_attendance_nonzero by done. cbn [mbind result_bind].
    cbn zeta.
    erewrite (rows_loop
      (λ ws a, [ Course.name c; Assignment.name a;
                 str (Assignment.score a) +:+ "%";
                 str (Assignment.weight a) +:+ "%";
                 fmt_2f ws +:+ "%" ])).
    + eexists _, _. reflexivity.
    + intros r td tws tw a. rewrite get_weighted_score_ok.
      reflexivity.
Qed.

Lemma courses_loop (sort_order : string) (cs : list Course.t)
    (st : Student.locals) :
  if decide (Forall (λ c, Course.total_sessions c ≠ 0%Z) cs) then
    ∃ r td,
      for_in cs (Student.course_body fmt_2f str tabulate sort_order) st
      = Ok (Student.mk_locals r td
              (Student.total_weighted_score_all_courses st
               + Spec.weighted_sum (concat (Course.assignments <$> cs)))
              (Student.total_weight_all_courses st
               + Spec.weight_sum (concat (Course.assignments <$> cs))))
  else
    for_in cs (Student.course_body fmt_2f str tabulate sort_order) st
    = Raise ZeroDivisionError.
Proof.
  revert st. induction cs as [|c cs IH]; intros st.
  - rewrite decide_True by constructor. destruct st as [r td tws tw].
    exists r, td. simpl. unfold Spec.weight_sum, Spec.weighted_sum. simpl.
    by rewrite !Qcplus_0_r.
  - cbn [for_in]. pose proof (course_body_cases sort_order st c) as Hc.
    destruct (decide (Course.total_sessions c = 0%Z)) as [Hts|Hts].
    + rewrite Hc. rewrite decide_False; [done|].
      intros [? _]%Forall_cons. done.
    + destruct Hc as (r & td & ->). cbn [mbind result_bind].
      specialize (IH (Student.mk_locals r td
        (Student.total_weighted_score_all_courses st
         + Spec.weighted_sum (Course.assignments c))
        (Student.total_weight_all_courses st
         + Spec.weight_sum (Course.assignments c)))).
      destruct (decide (Forall (λ c, Course.total_sessions c ≠ 0%Z) cs))
        as [Hcs|Hcs].
      * rewrite decide_True by (by constructor).
        destruct IH as (r' & td' & ->). exists r', td'.
        rewrite fmap_cons, concat_cons, weight_sum_app, weighted_sum_app.
        cbn [Student.total_weighted_score_all_courses
             Student.total_weight_all_courses].
        f_equal. f_equal; ring.
      * rewrite decide_False; [done|].
        intros [_ ?]%Forall_cons. done.
Qed.
End report_facts.

(** ** The object store *)

Lemma alloc_fresh (o : Object.obj) (h : Object.store) :
  h !! (Object.alloc o h).1 = None.
Proof. apply not_elem_of_dom, is_fresh. Qed.

Lemma alloc_lookup (o : Object.obj) (h : Object.store) :
  (Object.alloc o h).2 !! (Object.alloc o h).1 = Some o.
Proof. apply lookup_insert_eq. Qed.

Lemma alloc_frame (o : Object.obj) (h : Object.store) (l : Object.loc) :
  is_Some (h !! l) → (Object.alloc o h).2 !! l = h !! l.
Proof.
  intros Hl. apply lookup_insert_ne. intros <-.
  pose proof (alloc_fresh o h) as Hf. simpl in Hf. rewrite Hf in Hl.
  by destruct Hl.
Qed.

Lemma view_frame (h h' : Object.store) (self : Object.loc) (c : Course.t) :
  (∀ l, is_Some (h !! l) → h' !! l = h !! l) →
  Object.view h self = Some c → Object.view h' self = Some c.
Proof.
  intros Hfr. unfold Object.view.
  destruct (h !! self) as [[| |n la lt ts]|] eqn:Hself; try done.
  destruct (h !! la) as [[items| |]|] eqn:Hla; try done.
  destruct (h !! lt) as [[|records|]|] eqn:Hlt; try done.
  intros Hc.
  rewrite (Hfr self), Hself by (by rewrite Hself).
  rewrite (Hfr la), Hla by (by rewrite Hla).
  by rewrite (Hfr lt), Hlt by (by rewrite Hlt).
Qed.

(** A newly constructed course object reads back as the empty course. *)
Lemma init_view (h : Object.store) (name : string) (total_sessions : Z) :
  Object.view (Object.init name total_sessions h).2
    (Object.init name total_sessions h).1
  = Some (Course.init name total_sessions).
Proof.
  unfold Object.init.
  destruct (Object.alloc (Object.List []) h) as [la h1] eqn:H1.
  destruct (Object.alloc (Object.Attendance []) h1) as [lt h2] eqn:H2.
  set (o := Object.CourseObj name la lt total_sessions).
  assert (h1 !! la = Some (Object.List [])) as Hla.
  { pose proof (alloc_lookup (Object.List []) h) as Hl. by rewrite H1 in Hl. }
  assert (h2 !! lt = Some (Object.Attendance [])) as Hlt.
  { pose proof (alloc_lookup (Object.Attendance []) h1) as Hl.
    by rewrite H2 in Hl. }
  assert (h2 !! la = Some (Object.List [])) as Hla2.
  { pose proof (alloc_frame (Object.Attendance []) h1 la) as Hf.
    rewrite H2 in Hf. simpl in Hf. by rewrite Hf, Hla by (by rewrite Hla). }
  unfold Object.view. rewrite alloc_lookup. subst o. cbv beta iota.
  rewrite !alloc_frame by (by rewrite ?Hla2, ?Hlt).
  by rewrite Hla2, Hlt.
Qed.

(** In-place append, seen through [view], is the append of the value
    model. *)
Lemma add_assignment_view (h : Object.store) (self : Object.loc)
    (c : Course.t) (a : Assignment.t) :
  Object.view h self = Some c →
  ∃ h', Object.add_assignment self a h = Some h'
        ∧ Object.view h' self = Some (Course.add_assignment c a).
Proof.
  unfold Object.view, Object.add_assignment.
  destruct (h !! self) as [[| |n la lt ts]|] eqn:Hself; try done.
  destruct (h !! la) as [[items| |]|] eqn:Hla; try done.
  destruct (h !! lt) as [[|records|]|] eqn:Hlt; try done.
  intros [= <-]. eexists. split; [done|].
  assert (la ≠ self) by congruence. assert (la ≠ lt) by congruence.
  rewrite lookup_insert_ne, Hself by done.
  by rewrite lookup_insert_eq, lookup_insert_ne, Hlt by done.
Qed.

Lemma mark_attendance_view (h : Object.store) (self : Object.loc)
    (c : Course.t) (date status : string) :
  Object.view h self = Some c →
  ∃ h', Object.mark_attendance self date status h = Some h'
        ∧ Object.view h' self = Some (Course.mark_attendance c date status).
Proof.
  unfold Object.view, Object.mark_attendance.
  destruct (h !! self) as [[| |n la lt ts]|] eqn:Hself; try done.
  destruct (h !! la) as [[items| |]|] eqn:Hla; try done.
  destruct (h !! lt) as [[|records|]|] eqn:Hlt; try done.
  intros [= <-]. eexists. split; [done|].
  assert (lt ≠ self) by congruence. assert (lt ≠ la) by congruence.
  rewrite lookup_insert_ne, Hself by done.
  by rewrite lookup_insert_ne, Hla, lookup_insert_eq by done.
Qed.

(** ** The methods over an arithmetic *)

Section computed_facts.
Context {num : Type} `{!Number.ops num}.

Lemma get_weighted_score_computed (a : Assignment.t) :
  Computed.get_weighted_score (num := num) a = Ok (Computed.weighted a).
Proof.
  unfold Computed.get_weighted_score, Computed.truediv.
  by rewrite Number.hundred_not_zero.
Qed.

(** The guarded quotient of [check_progression] and [calculate_gpa]. *)
Lemma guarded_computed (n d : num) :
  (if Computed.truthy d
   then q ← Computed.truediv n d; Ok (Number.mul q (Number.read (lit 100)))
   else Ok (Number.read 0))
  = Ok (if Number.is_zero d then Number.read 0
        else Number.mul (Number.quotient n d) (Number.read (lit 100))).
Proof.
  unfold Computed.truthy, Computed.truediv.
  by destruct (Number.is_zero d).
Qed.

(** The loop of [calculate_group_score] from any accumulators: the
    assignments of the group are added one by one, in the order of the
    list. *)
Lemma group_loop_computed (ty : string) (l : list Assignment.t)
    (tw tws : num) :
  for_in l
    (λ '(total_weight, total_weighted_score) assignment,
       if decide (Assignment.assignment_type assignment = ty) then
         let total_weight :=
           Number.add total_weight
             (Number.read (Assignment.weight assignment)) in
         ws ← Computed.get_weighted_score assignment;
         Ok (total_weight, Number.add total_weighted_score ws)
       else Ok (total_weight, total_weighted_score))
    (tw, tws)
  = Ok (foldl Number.add tw (Computed.weight <$> Spec.of_type ty l),
        foldl Number.add tws (Computed.weighted <$> Spec.of_type ty l)).
Proof.
  revert tw tws. induction l as [|a l IH]; intros tw tws; [done|].
  cbn [for_in]. unfold Spec.of_type. rewrite filter_cons.
  destruct (decide (Assignment.assignment_type a = ty)) as [Ha|Ha].
  - cbn zeta. rewrite get_weighted_score_computed. cbn [mbind result_bind].
    fold (Spec.of_type ty l). rewrite IH. by rewrite !fmap_cons.
  - cbn [mbind result_bind]. fold (Spec.of_type ty l). by rewrite IH.
Qed.

Lemma calculate_group_score_computed (c : Course.t) (ty : string) :
  Computed.calculate_group_score (num := num) c ty
  = Ok (Computed.accumulate
          (Computed.weight <$> Spec.of_type ty (Course.assignments c)),
        Computed.accumulate
          (Computed.weighted <$> Spec.of_type ty (Course.assignments c))).
Proof. apply group_loop_computed. Qed.

Lemma check_progression_computed (c : Course.t) :
  let group_total (ty : string) : num :=
    let group := Spec.of_type ty (Course.assignments c) in
    let weight_sum : num := Computed.accumulate (Computed.weight <$> group) in
    let score_sum : num := Computed.accumulate (Computed.weighted <$> group) in
    if Number.is_zero weight_sum then Number.read 0
    else Number.mul (Number.quotient score_sum weight_sum)
           (Number.read (lit 100)) in
  Computed.check_progression c
  = Ok (Number.ge (group_total "Formative") (Number.read (lit 30))
        && Number.ge (group_total "Summative") (Number.read (lit 20)),
        group_total "Formative", group_total "Summative").
Proof.
  unfold Computed.check_progression.
  rewrite !calculate_group_score_computed. cbn [mbind result_bind].
  rewrite !guarded_computed. reflexivity.
Qed.

Lemma gpa_inner_loop_computed (l : list Assignment.t) (tws tw : num) :
  for_in l
    (λ '(total_weighted_score, total_weight) assignment,
       ws ← Computed.get_weighted_score assignment;
       Ok (Number.add total_weighted_score ws,
           Number.add total_weight
             (Number.read (Assignment.weight assignment))))
    (tws, tw)
  = Ok (foldl Number.add tws (Computed.weighted <$> l),
        foldl Number.add tw (Computed.weight <$> l)).
Proof.
  revert tws tw. induction l as [|a l IH]; intros tws tw; [done|].
  cbn [for_in]. rewrite get_weighted_score_computed. cbn [mbind result_bind].
  rewrite IH. by rewrite !fmap_cons.
Qed.

Lemma gpa_outer_loop_computed (cs : list Course.t) (tws tw : num) :
  for_in cs
    (λ acc course,
       for_in (Course.assignments course)
         (λ '(total_weighted_score, total_weight) assignment,
            ws ← Computed.get_weighted_score assignment;
            Ok (Number.add total_weighted_score ws,
                Number.add total_weight
                  (Number.read (Assignment.weight assignment))))
         acc)
    (tws, tw)
  = Ok (foldl Number.add tws
          (Computed.weighted <$> concat (Course.assignments <$> cs)),
        foldl Number.add tw
          (Computed.weight <$> concat (Course.assignments <$> cs))).
Proof.
  revert tws tw. induction cs as [|c cs IH]; intros tws tw; [done|].
  cbn [for_in]. rewrite gpa_inner_loop_computed. cbn [mbind result_bind].
  rewrite IH, fmap_cons, concat_cons, !fmap_app, !foldl_app. done.
Qed.

Lemma calculate_gpa_computed (s : Student.t) :
  let all := concat (Course.assignments <$> Student.courses s) in
  let total_weight : num := Computed.accumulate (Computed.weight <$> all) in
  let total_weighted_score : num :=
    Computed.accumulate (Computed.weighted <$> all) in
  Computed.calculate_gpa s
  = Ok (if Number.is_zero total_weight then Number.read 0
        else Number.mul (Number.quotient total_weighted_score total_weight)
               (Number.read (lit 100))).
Proof.
  cbn zeta. unfold Computed.calculate_gpa. rewrite gpa_outer_loop_computed.
  cbn [mbind result_bind]. apply guarded_computed.
Qed.
End computed_facts.

(** In exact arithmetic the accumulated sums are the sums of the
    specification, and the methods over the arithmetic are the methods of
    the class modules. *)
Lemma accumulate_exact (l : list Qc) : Computed.accumulate l = Spec.total l.
Proof.
  unfold Computed.accumulate. cbv [Number.read Number.add Number.exact].
  assert (∀ acc, foldl Qcplus acc l = acc + Spec.total l) as Hacc.
  { unfold Spec.total. induction l as [|x l IH]; intros acc; simpl.
    - by rewrite Qcplus_0_r.
    - rewrite IH. ring. }
  by rewrite Hacc, Qcplus_0_l.
Qed.

Lemma percentage_exact (l : list Assignment.t) :
  (if Number.is_zero (num := Qc)
        (Computed.accumulate (Computed.weight <$> l))
   then Number.read 0
   else Number.mul
          (Number.quotient (Computed.accumulate (Computed.weighted <$> l))
             (Computed.accumulate (Computed.weight <$> l)))
          (Number.read (lit 100)))
  = Spec.percentage l.
Proof.
  assert (Computed.accumulate (num := Qc) (Computed.weight <$> l)
          = Spec.weight_sum l) as -> by apply accumulate_exact.
  assert (Computed.accumulate (num := Qc) (Computed.weighted <$> l)
          = Spec.weighted_sum l) as -> by apply accumulate_exact.
  unfold Spec.percentage.
  cbv [Number.is_zero Number.read Number.mul Number.quotient Number.exact].
  destruct (decide (Spec.weight_sum l = 0)) as [Hw|Hw].
  - by rewrite bool_decide_true.
  - by rewrite bool_decide_false.
Qed.

Lemma check_progression_exact (c : Course.t) :
  Computed.check_progression c = Course.check_progression c.
Proof.
  pose proof (check_progression_computed (num := Qc) c) as Hc.
  pose proof (check_progression_ok c) as Ho. cbn zeta in Hc, Ho.
  rewrite Hc, Ho, !percentage_exact. reflexivity.
Qed.

Lemma calculate_gpa_exact (s : Student.t) :
  Computed.calculate_gpa s = Student.calculate_gpa s.
Proof.
  pose proof (calculate_gpa_computed (num := Qc) s) as Hc. cbn zeta in Hc.
  by rewrite Hc, calculate_gpa_ok, percentage_exact.
Qed.

(** * The properties of the specification *)

(** ** Assignment *)

(** C4.  [get_weighted_score] returns [score × weight / 100] for every
    assignment and never raises; there is no bounds check, so a negative
    score and a weight above 100 go through the same formula. *)
Theorem get_weighted_score_formula :
  (∀ a : Assignment.t,
     Assignment.get_weighted_score a
     = Ok (Assignment.score a * Assignment.weight a / lit 100))
  ∧ Assignment.get_weighted_score
      (Assignment.mk "out of range" (lit (-10)) (lit 150) "Formative")
    = Ok (lit (-15)).
Proof.
  split.
  - intros a. apply get_weighted_score_ok.
  - rewrite get_weighted_score_ok. f_equal. qc_closed.
Qed.

(** ** Course *)

(** C5.  [calculate_group_score] returns the sum of the weights and the sum
    of the weighted scores of exactly the assignments of the given type,
    and returns [(0, 0)], without raising, when no assignment has that
    type. *)
Theorem calculate_group_score_spec (c : Course.t) (group_type : string) :
  let group :=
    filter (λ a, Assignment.assignment_type a = group_type)
      (Course.assignments c) in
  Course.calculate_group_score c group_type
  = Ok (Spec.total (Assignment.weight <$> group),
        Spec.total
          ((λ a, Assignment.score a * Assignment.weight a / lit 100)
           <$> group))
  ∧ (Forall (λ a, Assignment.assignment_type a ≠ group_type)
       (Course.assignments c) →
     Course.calculate_group_score c group_type = Ok (0, 0)).
Proof.
  cbn zeta. split; [apply calculate_group_score_ok|].
  intros Hnone. rewrite calculate_group_score_ok. unfold Spec.of_type.
  by rewrite filter_none.
Qed.

Lemma calculate_group_score_spec_witness :
  Course.calculate_group_score
    (Course.add_assignment (Course.init "Linux" 10)
       (Assignment.mk "Discussion Board" (lit 100) (lit 20) "Formative"))
    "Summative"
  = Ok (0, 0).
Proof.
  apply calculate_group_score_spec.
  repeat constructor. simpl. discriminate.
Defined.

(** C1.  [check_progression] returns, for each of the two groups, the
    weighted-score sum divided by the weight sum times 100, and 0 when the
    weight sum is 0; [passed] holds exactly when the Formative total is at
    least 30 and the Summative total at least 20.  The sums are the ones
    the method accumulates, in the order of the list, and the totals and
    the two tests are taken in the arithmetic in use: the statement holds
    for exact arithmetic and for Python's numbers alike. *)
Theorem check_progression_spec {num : Type} `{!Number.ops num}
    (c : Course.t) :
  let group_total (ty : string) : num :=
    let group :=
      filter (λ a, Assignment.assignment_type a = ty)
        (Course.assignments c) in
    let weight_sum : num := Computed.accumulate (Computed.weight <$> group) in
    let score_sum : num := Computed.accumulate (Computed.weighted <$> group) in
    if Number.is_zero weight_sum then Number.read 0
    else Number.mul (Number.quotient score_sum weight_sum)
           (Number.read (lit 100)) in
  ∃ passed : bool,
    Computed.check_progression c
    = Ok (passed, group_total "Formative", group_total "Summative")
    ∧ (passed = true ↔
       Number.ge (group_total "Formative") (Number.read (lit 30)) = true
       ∧ Number.ge (group_total "Summative") (Number.read (lit 20)) = true).
Proof.
  cbn zeta. eexists. split; [apply check_progression_computed|].
  apply andb_true_iff.
Qed.

(** On Python's numbers a course can miss the threshold by rounding:
    (0 + 2×7/100 + 58×7/100) / 14 × 100 is 29.999999999999993. *)
Lemma check_progression_spec_witness :
  ∃ passed : bool,
    Computed.check_progression course_marginal
    = Ok (passed,
          Binary64.PFloat (Binary64.nearest 29999999999999993 (10 ^ 15)),
          Binary64.PFloat (Binary64.nearest 100 1))
    ∧ (passed = true ↔ false = true ∧ true = true).
Proof.
  exact (check_progression_spec (num := Binary64.pynum) course_marginal).
Defined.

Example check_progression_marginal_binary64 :
  Computed.check_progression course_marginal
  = Ok (false,
        Binary64.PFloat (Binary64.nearest 29999999999999993 (10 ^ 15)),
        Binary64.PFloat (Binary64.nearest 100 1)).
Proof. vm_compute. reflexivity. Qed.

Example check_progression_marginal_exact :
  Computed.check_progression course_marginal = Ok (true, lit 30, lit 100).
Proof.
  rewrite check_progression_exact, check_progression_ok.
  assert (Spec.percentage
            (Spec.of_type "Formative" (Course.assignments course_marginal))
          = lit 30) as -> by qc_closed.
  assert (Spec.percentage
            (Spec.of_type "Summative" (Course.assignments course_marginal))
          = lit 100) as -> by qc_closed.
  repeat f_equal.
Qed.

(** The example of the specification: two Formative assignments
    (100 at weight 10, 40.59 at weight 20) and one Summative (100 at
    weight 30) give 18.118 / 30 × 100 = 60.39..., 100 and a pass. *)
Example check_progression_course_1 :
  Course.check_progression course_1 = Ok (true, dec 9059 150, lit 100).
Proof.
  rewrite check_progression_ok.
  assert (Spec.percentage
            (Spec.of_type "Formative" (Course.assignments course_1))
          = dec 9059 150) as -> by qc_closed.
  assert (Spec.percentage
            (Spec.of_type "Summative" (Course.assignments course_1))
          = lit 100) as -> by qc_closed.
  repeat f_equal.
Qed.

(** The same example on Python's numbers: 60.393333333333345, 100.0. *)
Example check_progression_course_1_binary64 :
  Computed.check_progression course_1
  = Ok (true,
        Binary64.PFloat (Binary64.nearest 60393333333333345 (10 ^ 15)),
        Binary64.PFloat (Binary64.nearest 100 1)).
Proof. vm_compute. reflexivity. Qed.

(** ** Student *)

(** C2.  [calculate_gpa] returns the sum of the weighted scores of all
    assignments of all courses divided by the sum of their weights, times
    100, and returns 0, without raising, when the total weight is 0, as it
    is for a student without assignments.  The two sums are the totals the
    method accumulates, course by course and assignment by assignment, in
    the arithmetic in use. *)
Theorem calculate_gpa_spec {num : Type} `{!Number.ops num} (s : Student.t) :
  let all := concat (Course.assignments <$> Student.courses s) in
  let total_weight : num := Computed.accumulate (Computed.weight <$> all) in
  let total_weighted_score : num :=
    Computed.accumulate (Computed.weighted <$> all) in
  Computed.calculate_gpa s
  = Ok (if Number.is_zero total_weight then Number.read 0
        else Number.mul (Number.quotient total_weighted_score total_weight)
               (Number.read (lit 100)))
  ∧ (Number.is_zero total_weight = true →
     Computed.calculate_gpa s = Ok (Number.read (num := num) 0))
  ∧ (all = [] → Computed.calculate_gpa s = Ok (Number.read (num := num) 0)).
Proof.
  cbn zeta. pose proof (calculate_gpa_computed (num := num) s) as Hs.
  cbn zeta in Hs. split_and!.
  - exact Hs.
  - intros Hz. by rewrite Hs, Hz.
  - intros Hall. rewrite Hs, Hall. cbn [fmap list_fmap].
    unfold Computed.accumulate. cbn [foldl].
    by rewrite Number.zero_is_zero.
Qed.

(** On Python's numbers: a student without assignments, and one whose
    integer weights 10 and -10 add up to 0. *)
Lemma calculate_gpa_spec_witness :
  Computed.calculate_gpa student_empty = Ok (Binary64.PInt 0)
  ∧ Computed.calculate_gpa student_offsetting = Ok (Binary64.PInt 0).
Proof.
  split.
  - exact (proj2 (proj2 (calculate_gpa_spec (num := Binary64.pynum)
                           student_empty)) eq_refl).
  - exact (proj1 (proj2 (calculate_gpa_spec (num := Binary64.pynum)
                           student_offsetting)) eq_refl).
Defined.

(** Weights written 0.1, 0.2 and -0.3 cancel in exact arithmetic, and the
    value is 0; accumulated in binary64 they leave 2^-54, the guard does
    not apply and the value is about 2.7e17. *)
Example calculate_gpa_cancelling_exact :
  Computed.calculate_gpa student_cancelling = Ok (lit 0).
Proof.
  rewrite calculate_gpa_exact, calculate_gpa_ok. f_equal. qc_closed.
Qed.

Example calculate_gpa_cancelling_binary64 :
  Computed.calculate_gpa student_cancelling
  = Ok (Binary64.PFloat (Binary64.nearest 270215977642229860 1)).
Proof. vm_compute. reflexivity. Qed.

(** ** Attendance *)

(** C9.  With a positive [total_sessions], [calculate_attendance] is the
    number of "Present" records divided by the configured [total_sessions],
    times 100: it is 100 for 7 sessions and 7 "Present" records, and above
    100 when more "Present" records than sessions have been marked. *)
Theorem calculate_attendance_spec (c : Course.t) :
  (0 < Course.total_sessions c)%Z →
  let percentage :=
    Qc_of_Z (Spec.present_count c) / Qc_of_Z (Course.total_sessions c)
    * lit 100 in
  Course.calculate_attendance c = Ok percentage
  ∧ (Course.total_sessions c = 7%Z → Spec.present_count c = 7%Z →
     percentage = lit 100)
  ∧ ((Course.total_sessions c < Spec.present_count c)%Z →
     lit 100 < percentage).
Proof.
  intros Hts. cbn zeta. split_and!.
  - apply calculate_attendance_nonzero. lia.
  - intros -> ->. qc_closed.
  - intros Hmore. by apply quotient_gt_100.
Qed.

Lemma calculate_attendance_spec_witness :
  Course.calculate_attendance course_1 = Ok (lit 100)
  ∧ lit 100
    < Qc_of_Z
        (Spec.present_count
           (Course.mark_attendance course_1 "Sep 23" "Present"))
      / Qc_of_Z 7 * lit 100.
Proof.
  split.
  - destruct (calculate_attendance_spec course_1) as (Hv & H100 & _).
    + reflexivity.
    + rewrite Hv. f_equal. apply H100; reflexivity.
  - apply (calculate_attendance_spec
             (Course.mark_attendance course_1 "Sep 23" "Present")).
    + reflexivity.
    + reflexivity.
Defined.

(** Eight "Present" records against seven configured sessions. *)
Example calculate_attendance_above_100 :
  Course.calculate_attendance
    (Course.mark_attendance course_1 "Sep 23" "Present")
  = Ok (dec 800 7).
Proof. rewrite calculate_attendance_nonzero by done. f_equal; qc_closed. Qed.

(** C3.  The division of [calculate_attendance] has no guard: a course
    constructed with [total_sessions = 0] makes it raise
    [ZeroDivisionError], where the other divisions of the program return a
    default of 0. *)
Theorem calculate_attendance_no_sessions :
  Course.calculate_attendance
    (Course.mark_attendance (Course.init "Seminar" 0) "Sep 16" "Present")
  = Raise ZeroDivisionError
  ∧ Course.check_progression (Course.init "Seminar" 0) = Ok (false, 0, 0)
  ∧ Student.calculate_gpa
      (Student.mk "ISHIMWE Bruno" "i.bruno@alustudent.com"
         [Course.init "Seminar" 0])
    = Ok 0.
Proof.
  split_and!.
  - by apply calculate_attendance_zero_sessions.
  - by rewrite check_progression_ok.
  - by rewrite calculate_gpa_ok.
Qed.

(** ** Resubmission *)

(** C6.  [get_resubmission_candidates] returns, in order, the names of
    exactly the assignments that are Formative with a score below 50; none
    of the assignments it lists is Summative, whatever its score. *)
Theorem get_resubmission_candidates_spec (c : Course.t) :
  let eligible := filter Spec.resubmittable (Course.assignments c) in
  Course.get_resubmission_candidates c = Assignment.name <$> eligible
  ∧ (∀ a, a ∈ eligible ↔
          a ∈ Course.assignments c
          ∧ Assignment.assignment_type a = "Formative"
          ∧ Assignment.score a < lit 50)
  ∧ (∀ a, Assignment.assignment_type a = "Summative" → a ∉ eligible).
Proof.
  cbn zeta. split_and!.
  - apply comprehension_filter. intros a.
    rewrite andb_true_iff, !bool_decide_eq_true.
    unfold Spec.resubmittable. tauto.
  - intros a. rewrite list_elem_of_filter. unfold Spec.resubmittable. tauto.
  - intros a Hsum [[Hform _] _]%list_elem_of_filter. congruence.
Qed.

Lemma get_resubmission_candidates_spec_witness :
  Assignment.mk "Final" (lit 40) (lit 30) "Summative"
  ∉ filter Spec.resubmittable
      (Course.assignments
         (Course.add_assignment course_1
            (Assignment.mk "Final" (lit 40) (lit 30) "Summative"))).
Proof. by apply get_resubmission_candidates_spec. Defined.

(** The examples of the specification: the Formative assignment at 40.59
    is listed, a Summative assignment at 40 is not. *)
Example get_resubmission_candidates_course_1 :
  Course.get_resubmission_candidates
    (Course.add_assignment course_1
       (Assignment.mk "Final" (lit 40) (lit 30) "Summative"))
  = ["Python - Inheritance"].
Proof. reflexivity. Qed.

(** ** Transcript *)

(** C7.  [generate_transcript] returns the assignments of the course
    sorted by score, descending for the order "descending" and ascending
    otherwise, and the sort is stable in both orders: the assignments of
    any one score appear in the order they have in the course. *)
Theorem generate_transcript_sorted_stable (c : Course.t)
    (sort_order : string) :
  let transcript := Course.generate_transcript c sort_order in
  transcript ≡ₚ Course.assignments c
  ∧ (sort_order = "descending" →
     StronglySorted (λ a b, Assignment.score b ≤ Assignment.score a)
       transcript)
  ∧ (sort_order ≠ "descending" →
     StronglySorted (λ a b, Assignment.score a ≤ Assignment.score b)
       transcript)
  ∧ (∀ v : Qc,
       filter (λ a, Assignment.score a = v) transcript
       = filter (λ a, Assignment.score a = v) (Course.assignments c)).
Proof.
  cbn zeta. unfold Course.generate_transcript. split_and!.
  - apply sorted_perm.
  - intros ->. apply sorted_descending.
  - intros Hasc. rewrite bool_decide_false by done. apply sorted_ascending.
  - intros v. apply sorted_stable.
Qed.

Lemma generate_transcript_sorted_stable_witness :
  StronglySorted (λ a b, Assignment.score b ≤ Assignment.score a)
    (Course.generate_transcript course_ties "descending")
  ∧ StronglySorted (λ a b, Assignment.score a ≤ Assignment.score b)
      (Course.generate_transcript course_ties "ascending").
Proof.
  split.
  - apply generate_transcript_sorted_stable. reflexivity.
  - apply generate_transcript_sorted_stable. discriminate.
Defined.

Example generate_transcript_descending :
  Assignment.name <$> Course.generate_transcript course_ties "descending"
  = [ "Python - Hello, World"; "Python - Data Structures";
      "Python - Recap"; "Python - Inheritance" ].
Proof. vm_compute. reflexivity. Qed.

Example generate_transcript_ascending :
  Assignment.name <$> Course.generate_transcript course_ties "ascending"
  = [ "Python - Inheritance"; "Python - Recap";
      "Python - Hello, World"; "Python - Data Structures" ].
Proof. vm_compute. reflexivity. Qed.

(** C10.  [generate_transcript] only reads the course: the sorted list is
    a new object at a location that was not in use, every object that
    existed keeps its contents, and the course read back from the store
    is the same value (same assignments in the same order, same attendance
    and [total_sessions]), for every sort order. *)
Theorem generate_transcript_read_only (h : Object.store)
    (self : Object.loc) (c : Course.t) (sort_order : string) :
  Object.view h self = Some c →
  ∃ (r : Object.loc) (h' : Object.store),
    Object.generate_transcript self sort_order h = Some (r, h')
    ∧ h !! r = None
    ∧ h' !! r = Some (Object.List (Course.generate_transcript c sort_order))
    ∧ (∀ l, is_Some (h !! l) → h' !! l = h !! l)
    ∧ Object.view h' self = Some c.
Proof.
  intros Hview. pose proof Hview as Hc.
  unfold Object.view in Hc. unfold Object.generate_transcript.
  destruct (h !! self) as [[| |n la lt ts]|] eqn:Hself; try done.
  destruct (h !! la) as [[items| |]|] eqn:Hla; try done.
  destruct (h !! lt) as [[|records|]|] eqn:Hlt; try done.
  injection Hc as <-.
  set (o := Object.List _).
  exists (Object.alloc o h).1, (Object.alloc o h).2. split_and!.
  - by destruct (Object.alloc o h).
  - apply alloc_fresh.
  - apply alloc_lookup.
  - intros l. apply alloc_frame.
  - eapply view_frame; [|exact Hview]. intros l. apply alloc_frame.
Qed.

Lemma generate_transcript_read_only_witness :
  ∃ (r : Object.loc) (h' : Object.store),
    Object.generate_transcript store_1.1 "ascending" store_1.2
    = Some (r, h')
    ∧ store_1.2 !! r = None
    ∧ h' !! r
      = Some (Object.List
                [ Assignment.mk "General Quiz" (dec 7551 100) (lit 15)
                    "Formative";
                  Assignment.mk "Discussion Board" (lit 100) (lit 20)
                    "Formative" ])
    ∧ (∀ l, is_Some (store_1.2 !! l) → h' !! l = store_1.2 !! l)
    ∧ Object.view h' store_1.1
      = Some (Course.mk "Linux"
                [ Assignment.mk "Discussion Board" (lit 100) (lit 20)
                    "Formative";
                  Assignment.mk "General Quiz" (dec 7551 100) (lit 15)
                    "Formative" ]
                [] 10).
Proof.
  apply (generate_transcript_read_only store_1.2 store_1.1
           (Course.mk "Linux"
              [ Assignment.mk "Discussion Board" (lit 100) (lit 20)
                  "Formative";
                Assignment.mk "General Quiz" (dec 7551 100) (lit 15)
                  "Formative" ]
              [] 10) "ascending").
  vm_compute. reflexivity.
Defined.

(** ** Report *)

(** C8.  In [generate_report] the totals accumulated assignment by
    assignment are the sums that [calculate_gpa] divides, so the value
    printed as "Overall GPA" and the value printed as "Overall Average
    Score" are the same number, 0 included when the total weight is 0.
    The report is produced whenever every course has a non-zero
    [total_sessions]. *)
Theorem generate_report_overall_values
    (fmt_2f str : Qc → string)
    (tabulate : list (list string) → list string → string)
    (s : Student.t) (sort_order : string) :
  let header :=
    ("Report for " +:+ Student.name s +:+ " (" +:+ Student.email s
     +:+ ")" +:+ nl)
    +:+ (str_mul "=" 40 +:+ nl) in
  let guarded (num den : Qc) : result Qc :=
    if truthy den then q ← truediv num den; Ok (q * lit 100) else Ok 0 in
  (Forall (λ c, Course.total_sessions c ≠ 0%Z) (Student.courses s) →
   ∃ report, Student.generate_report fmt_2f str tabulate s sort_order
             = Ok report)
  ∧ (∀ report,
       Student.generate_report fmt_2f str tabulate s sort_order = Ok report →
       ∃ (st : Student.locals) (gpa overall_avg_score : Qc),
         for_in (Student.courses s)
           (Student.course_body fmt_2f str tabulate sort_order)
           (Student.mk_locals header [] 0 0)
         = Ok st
         ∧ Student.calculate_gpa s = Ok gpa
         ∧ guarded (Student.total_weighted_score_all_courses st)
             (Student.total_weight_all_courses st)
           = Ok overall_avg_score
         ∧ gpa = overall_avg_score
         ∧ report
           = (((Student.report st
                +:+ Student.overall_lines fmt_2f gpa overall_avg_score)
               +:+ (str_mul "=" 40 +:+ nl))
              +:+ (nl +:+ "Detailed Report:" +:+ nl))
             +:+ tabulate (Student.table_data st)
                   [ "Course"; "Assignment"; "Score"; "Weight";
                     "Weighted Score" ]).
Proof.
  cbn zeta. unfold Student.generate_report.
  set (st0 := Student.mk_locals _ [] 0 0).
  pose proof (courses_loop fmt_2f str tabulate sort_order
                (Student.courses s) st0) as Hloop.
  destruct (decide (Forall (λ c, Course.total_sessions c ≠ 0%Z)
                      (Student.courses s))) as [Hall|Hsome].
  - destruct Hloop as (r & td & ->). cbn [mbind result_bind].
    rewrite calculate_gpa_ok. cbn [mbind result_bind].
    rewrite guarded_quotient. cbn [mbind result_bind].
    subst st0. cbn [Student.total_weighted_score_all_courses
                    Student.total_weight_all_courses].
    rewrite !Qcplus_0_l. split; [by eexists|].
    intros report [= <-]. eexists _, _, _. split_and!; try reflexivity.
    cbn [Student.total_weighted_score_all_courses
         Student.total_weight_all_courses].
    apply guarded_quotient.
  - rewrite Hloop. split; [done|]. intros report [=].
Qed.

Lemma generate_report_overall_values_witness :
  ∃ (report : string) (gpa : Qc),
    Student.generate_report show show grid student "ascending" = Ok report
    ∧ Student.calculate_gpa student = Ok gpa.
Proof.
  destruct (proj1 (generate_report_overall_values show show grid student
                     "ascending")) as [report Hreport].
  { repeat constructor; discriminate. }
  destruct (proj2 (generate_report_overall_values show show grid student
                     "ascending") report Hreport)
    as (st & gpa & avg & _ & Hgpa & _).
  exists report, gpa. split; [exact Hreport|exact Hgpa].
Defined.

(** The overall value of the script's own data: 174.694 / 210 × 100. *)
Example calculate_gpa_student :
  Student.calculate_gpa student = Ok (dec 87347 1050).
Proof. rewrite calculate_gpa_ok. f_equal; qc_closed. Qed.

(** * Further properties of the methods *)

(** ** Attendance: errors, bounds, marking *)

Lemma quotient_le_100 (n d : Z) :
  (0 < d)%Z → (n ≤ d)%Z → Qc_of_Z n / Qc_of_Z d * lit 100 ≤ lit 100.
Proof.
  intros Hd Hn. pose proof (Qc_of_Z_pos d Hd) as Hd'.
  assert (Qc_of_Z n / Qc_of_Z d ≤ 1) as H1.
  { apply (Qcmult_le_mono_pos_r _ _ (Qc_of_Z d)); [done|].
    rewrite Qcmult_1_l. unfold Qcdiv.
    rewrite <-Qcmult_assoc, Qcmult_inv_l, Qcmult_1_r.
    - by rewrite <-Z2Qc_inj_le.
    - intros H0. rewrite H0 in Hd'. by apply Qclt_not_eq in Hd'. }
  rewrite <-(Qcmult_1_l (lit 100)) at 2.
  apply Qcmult_le_compat_r; [done|].
  apply Qclt_le_weak. by apply Qc_of_Z_pos.
Qed.

Lemma quotient_nonneg (n d : Z) :
  (0 < d)%Z → (0 ≤ n)%Z → 0 ≤ Qc_of_Z n / Qc_of_Z d * lit 100.
Proof.
  intros Hd Hn. pose proof (Qc_of_Z_pos d Hd) as Hd'.
  apply Qcmult_nonneg_nonneg; [apply Qcmult_nonneg_nonneg|].
  - rewrite <-Z2Qc_inj_0. by rewrite <-Z2Qc_inj_le.
  - apply Qclt_le_weak. by apply Qcinv_pos.
  - apply Qclt_le_weak. by apply Qc_of_Z_pos.
Qed.

Lemma present_count_mark (c : Course.t) (date status : string) :
  Spec.present_count (Course.mark_attendance c date status)
  = (Spec.present_count c + if decide (status = "Present") then 1 else 0)%Z.
Proof.
  unfold Spec.present_count. cbn [Course.mark_attendance Course.attendance].
  rewrite filter_app, length_app, filter_cons, filter_nil. cbn [snd].
  destruct (decide (status = "Present")); simpl; lia.
Qed.

(** The only failure of [calculate_attendance] is the division: it raises
    exactly on the courses configured with zero sessions, whatever the
    attendance log holds. *)
Theorem calculate_attendance_raises_iff (c : Course.t) (e : exn) :
  Course.calculate_attendance c = Raise e
  ↔ Course.total_sessions c = 0%Z ∧ e = ZeroDivisionError.
Proof.
  split.
  - intros Hr. destruct (decide (Course.total_sessions c = 0%Z)) as [Hts|Hts].
    + rewrite calculate_attendance_zero_sessions in Hr by done.
      by injection Hr as <-.
    + by rewrite calculate_attendance_nonzero in Hr.
  - intros [Hts ->]. by apply calculate_attendance_zero_sessions.
Qed.

(** With a positive number of sessions the percentage is never negative,
    and it stays within 100 exactly when the "Present" records do not
    outnumber the configured sessions: nothing caps it. *)
Theorem calculate_attendance_bounds (c : Course.t) :
  (0 < Course.total_sessions c)%Z →
  ∃ p : Qc,
    Course.calculate_attendance c = Ok p
    ∧ 0 ≤ p
    ∧ (p ≤ lit 100 ↔ (Spec.present_count c ≤ Course.total_sessions c)%Z).
Proof.
  intros Hts. eexists. split_and!.
  - apply calculate_attendance_nonzero. lia.
  - apply quotient_nonneg; [done|]. unfold Spec.present_count. lia.
  - split.
    + intros Hle.
      destruct (decide (Spec.present_count c ≤ Course.total_sessions c)%Z)
        as [|Hgt]; [done|].
      exfalso. eapply Qclt_not_le; [|exact Hle].
      apply quotient_gt_100; lia.
    + by apply quotient_le_100.
Qed.

Lemma calculate_attendance_bounds_witness :
  ∃ p : Qc,
    Course.calculate_attendance course_1 = Ok p
    ∧ 0 ≤ p
    ∧ (p ≤ lit 100
       ↔ (Spec.present_count course_1 ≤ Course.total_sessions course_1)%Z).
Proof. apply calculate_attendance_bounds. reflexivity. Defined.

(** [mark_attendance] followed by [calculate_attendance]: a record whose
    status is not exactly "Present" leaves the result as it was (also when
    it is the exception), and each "Present" record counts for one more
    session, with no check that its date is new. *)
Theorem mark_attendance_then_calculate (c : Course.t) (date status : string) :
  (status ≠ "Present" →
   Course.calculate_attendance (Course.mark_attendance c date status)
   = Course.calculate_attendance c)
  ∧ (Course.total_sessions c ≠ 0%Z →
     Course.calculate_attendance (Course.mark_attendance c date "Present")
     = Ok (Qc_of_Z (Spec.present_count c + 1)
           / Qc_of_Z (Course.total_sessions c) * lit 100)).
Proof.
  split.
  - intros Hs. rewrite !calculate_attendance_unfold, present_count_mark.
    rewrite decide_False by done. by rewrite Z.add_0_r.
  - intros Hts. rewrite calculate_attendance_nonzero by done.
    by rewrite present_count_mark.
Qed.

Lemma mark_attendance_then_calculate_witness :
  Course.calculate_attendance (Course.mark_attendance course_1 "Sep 22" "Absent")
  = Course.calculate_attendance course_1
  ∧ Course.calculate_attendance
      (Course.mark_attendance course_1 "Sep 22" "Present")
    = Ok (Qc_of_Z (7 + 1) / Qc_of_Z 7 * lit 100).
Proof.
  split.
  - apply mark_attendance_then_calculate. discriminate.
  - apply (proj2 (mark_attendance_then_calculate course_1 "Sep 22" "Present")).
    discriminate.
Defined.

(** ** Group scores, progression and the overall value *)

Lemma weight_sum_singleton (a : Assignment.t) :
  Spec.weight_sum [a] = Assignment.weight a.
Proof. unfold Spec.weight_sum, Spec.total. simpl. ring. Qed.

Lemma weighted_sum_singleton (a : Assignment.t) :
  Spec.weighted_sum [a] = Spec.weighted a.
Proof. unfold Spec.weighted_sum, Spec.total. simpl. ring. Qed.

Lemma of_type_app (ty : string) (l1 l2 : list Assignment.t) :
  Spec.of_type ty (l1 ++ l2) = Spec.of_type ty l1 ++ Spec.of_type ty l2.
Proof. apply filter_app. Qed.

Lemma of_type_other (ty : string) (a : Assignment.t) (l : list Assignment.t) :
  Assignment.assignment_type a ≠ ty →
  Spec.of_type ty (l ++ [a]) = Spec.of_type ty l.
Proof.
  intros Ha. rewrite of_type_app. unfold Spec.of_type at 2.
  rewrite filter_cons_False, filter_nil by done. apply app_nil_r.
Qed.

(** [add_assignment] followed by [calculate_group_score]: the new
    assignment adds its weight and its weighted score to the group of its
    own type and to no other group. *)
Theorem add_assignment_then_group_score (c : Course.t) (a : Assignment.t)
    (group_type : string) :
  ∃ total_weight total_weighted_score : Qc,
    Course.calculate_group_score c group_type
    = Ok (total_weight, total_weighted_score)
    ∧ Course.calculate_group_score (Course.add_assignment c a) group_type
      = Ok (if decide (Assignment.assignment_type a = group_type)
            then (total_weight + Assignment.weight a,
                  total_weighted_score
                  + Assignment.score a * Assignment.weight a / lit 100)
            else (total_weight, total_weighted_score)).
Proof.
  eexists _, _. split; [apply calculate_group_score_ok|].
  rewrite calculate_group_score_ok.
  cbn [Course.add_assignment Course.assignments].
  destruct (decide (Assignment.assignment_type a = group_type)) as [Ha|Ha].
  - rewrite of_type_app, weight_sum_app, weighted_sum_app.
    unfold Spec.of_type at 2 4. rewrite filter_cons_True, filter_nil by done.
    by rewrite weight_sum_singleton, weighted_sum_singleton.
  - by rewrite of_type_other.
Qed.

(** The type of an assignment is not validated.  An assignment whose type
    is neither 'Formative' nor 'Summative' changes neither the progression
    of its course nor its resubmission list, yet it is counted in the
    overall value of the student: its weight and its weighted score are
    added to the two totals that [calculate_gpa] divides.  This holds in
    every arithmetic. *)
Theorem unrecognised_type_ignored_by_course {num : Type} `{!Number.ops num}
    (c : Course.t) (a : Assignment.t) (name email : string) :
  Assignment.assignment_type a ≠ "Formative" →
  Assignment.assignment_type a ≠ "Summative" →
  Computed.check_progression (num := num) (Course.add_assignment c a)
  = Computed.check_progression c
  ∧ Course.get_resubmission_candidates (Course.add_assignment c a)
    = Course.get_resubmission_candidates c
  ∧ (let total_weight : num :=
       Number.add
         (Computed.accumulate (Computed.weight <$> Course.assignments c))
         (Computed.weight a) in
     let total_weighted_score : num :=
       Number.add
         (Computed.accumulate (Computed.weighted <$> Course.assignments c))
         (Computed.weighted a) in
     Computed.calculate_gpa
       (Student.mk name email [Course.add_assignment c a])
     = Ok (if Number.is_zero total_weight then Number.read 0
           else Number.mul
                  (Number.quotient total_weighted_score total_weight)
                  (Number.read (lit 100)))).
Proof.
  intros Hf Hs. split_and!.
  - pose proof (check_progression_computed (num := num) c) as Hc.
    pose proof (check_progression_computed (num := num)
                  (Course.add_assignment c a)) as Hca.
    cbn zeta in Hc, Hca. rewrite Hc, Hca.
    cbn [Course.add_assignment Course.assignments].
    by rewrite !of_type_other.
  - unfold Course.get_resubmission_candidates.
    rewrite !(comprehension_filter _ _ Spec.resubmittable).
    + cbn [Course.add_assignment Course.assignments].
      rewrite filter_app, filter_cons_False, filter_nil, app_nil_r; [done|].
      by intros [? _].
    + intros x. rewrite andb_true_iff, !bool_decide_eq_true.
      unfold Spec.resubmittable. tauto.
    + intros x. rewrite andb_true_iff, !bool_decide_eq_true.
      unfold Spec.resubmittable. tauto.
  - cbn zeta.
    pose proof (calculate_gpa_computed (num := num)
                  (Student.mk name email [Course.add_assignment c a])) as Hg.
    cbn zeta in Hg. rewrite Hg.
    cbn [Student.courses].
    rewrite fmap_cons, fmap_nil, concat_cons, concat_nil, app_nil_r.
    cbn [Course.add_assignment Course.assignments].
    unfold Computed.accumulate. rewrite !fmap_app, !foldl_app.
    reflexivity.
Qed.

(** On Python's numbers, with the weights 0.1 and 0.2 of the course and
    the weight -0.3 of the added assignment. *)
Lemma unrecognised_type_ignored_by_course_witness :
  Computed.check_progression (num := Binary64.pynum)
    (Course.add_assignment course_cancelling bonus)
  = Computed.check_progression course_cancelling
  ∧ Computed.calculate_gpa student_cancelling
    = Ok (Binary64.PFloat (Binary64.nearest 270215977642229860 1)).
Proof.
  destruct (unrecognised_type_ignored_by_course (num := Binary64.pynum)
              course_cancelling bonus "ISHIMWE Bruno"
              "i.bruno@alustudent.com") as (Hp & _ & Hg);
    [discriminate|discriminate|].
  split; [exact Hp|exact Hg].
Defined.

(** A group without weight scores 0, below either threshold: a course
    passes only if it has Formative weight and Summative weight.  A course
    with no Summative assignment, or with no Formative one, fails whatever
    the scores of the other group. *)
Theorem check_progression_needs_both_groups (c : Course.t) :
  (Forall (λ a, Assignment.assignment_type a ≠ "Summative")
     (Course.assignments c) →
   ∃ formative_total,
     Course.check_progression c = Ok (false, formative_total, 0))
  ∧ (Forall (λ a, Assignment.assignment_type a ≠ "Formative")
       (Course.assignments c) →
     ∃ summative_total,
       Course.check_progression c = Ok (false, 0, summative_total)).
Proof.
  pose proof (check_progression_ok c) as Hc. cbn zeta in Hc.
  assert (∀ ty, Forall (λ a, Assignment.assignment_type a ≠ ty)
                  (Course.assignments c) →
                Spec.percentage (Spec.of_type ty (Course.assignments c)) = 0)
    as Hnone.
  { intros ty Hty. unfold Spec.of_type. by rewrite filter_none. }
  assert (∀ n, (0 < n)%Z → bool_decide (lit n ≤ 0) = false) as Hthr.
  { intros n Hn. apply bool_decide_eq_false, Qclt_not_le.
    by apply Qc_of_Z_pos. }
  split; intros Hty; rewrite Hc, (Hnone _ Hty); eexists.
  - by rewrite (Hthr 20%Z), andb_false_r.
  - by rewrite (Hthr 30%Z).
Qed.

Lemma check_progression_needs_both_groups_witness :
  ∃ formative_total,
    Course.check_progression
      (Course.add_assignment (Course.init "Linux" 10)
         (Assignment.mk "Discussion Board" (lit 100) (lit 20) "Formative"))
    = Ok (false, formative_total, 0).
Proof.
  apply check_progression_needs_both_groups.
  repeat constructor. simpl. discriminate.
Defined.

(** ** Resubmission *)

(** [add_assignment] followed by [get_resubmission_candidates]: the name of
    the new assignment comes last in the list when the assignment is
    Formative with a score strictly below 50, and the list is unchanged
    otherwise; names already listed are kept, so a name can occur twice. *)
Theorem add_assignment_then_resubmission (c : Course.t) (a : Assignment.t) :
  Course.get_resubmission_candidates (Course.add_assignment c a)
  = Course.get_resubmission_candidates c
    ++ (if decide (Assignment.assignment_type a = "Formative"
                   ∧ Assignment.score a < lit 50)
        then [Assignment.name a] else []).
Proof.
  assert (∀ x : Assignment.t,
            bool_decide (Assignment.score x < lit 50)
            && bool_decide (Assignment.assignment_type x = "Formative")
            = true ↔ Spec.resubmittable x) as Hc.
  { intros x. rewrite andb_true_iff, !bool_decide_eq_true.
    unfold Spec.resubmittable. tauto. }
  unfold Course.get_resubmission_candidates.
  rewrite !(comprehension_filter _ _ Spec.resubmittable) by done.
  cbn [Course.add_assignment Course.assignments].
  rewrite filter_app, fmap_app, filter_cons, filter_nil.
  unfold Spec.resubmittable at 2.
  by destruct (decide _).
Qed.

(** ** Transcript *)

Section sorted_more.
Context {A : Type} (key : A → Qc).

Lemma insert_sorted_least (x : A) (l : list A) :
  Forall (λ y, key x ≤ key y) l → insert_sorted key x l = x :: l.
Proof.
  destruct 1 as [|y l Hy _]; [done|]. simpl. by rewrite decide_True.
Qed.

Lemma sort_of_sorted (l : list A) :
  StronglySorted (λ a b, key a ≤ key b) l → sort key l = l.
Proof.
  induction 1 as [|x l _ IH Hx]; [done|]. simpl.
  rewrite IH. by apply insert_sorted_least.
Qed.

Lemma sorted_idempotent (reverse : bool) (l : list A) :
  sorted key reverse (sorted key reverse l) = sorted key reverse l.
Proof.
  unfold sorted. destruct reverse.
  - rewrite reverse_involutive. f_equal. apply sort_of_sorted, sort_sorted.
  - apply sort_of_sorted, sort_sorted.
Qed.

Lemma NoDup_fmap_eq (l : list A) (x y : A) :
  NoDup (key <$> l) → x ∈ l → y ∈ l → key x = key y → x = y.
Proof.
  induction l as [|z l IH]; intros Hnd Hx Hy Hk; [by inv Hx|].
  rewrite fmap_cons in Hnd. apply NoDup_cons in Hnd as [Hz Hnd].
  apply elem_of_cons in Hx as [->|Hx], Hy as [->|Hy]; [done| | |by apply IH].
  - exfalso. apply Hz. rewrite Hk. by apply list_elem_of_fmap_2.
  - exfalso. apply Hz. rewrite <-Hk. by apply list_elem_of_fmap_2.
Qed.

Lemma sort_reverse_distinct (l : list A) :
  NoDup (key <$> l) → sort key (reverse l) = sort key l.
Proof.
  intros Hnd.
  apply (StronglySorted_unique_strong (λ a b, key a ≤ key b));
    [|apply sort_sorted..|].
  - intros x1 x2 Hx1 Hx2 H12 H21.
    rewrite sort_perm in Hx1, Hx2. rewrite elem_of_reverse in Hx1.
    apply (NoDup_fmap_eq l); [done..|]. by apply (anti_symm Qcle).
  - by rewrite !sort_perm, reverse_Permutation.
Qed.

Lemma sorted_descending_reverse (l : list A) :
  NoDup (key <$> l) → sorted key true l = reverse (sorted key false l).
Proof. intros Hnd. unfold sorted. by rewrite sort_reverse_distinct. Qed.
End sorted_more.

(** Sorting a transcript again in the same order changes nothing. *)
Theorem generate_transcript_idempotent (c : Course.t) (sort_order : string)
    (name : string) (attendance : list (string * string))
    (total_sessions : Z) :
  Course.generate_transcript
    (Course.mk name (Course.generate_transcript c sort_order) attendance
       total_sessions)
    sort_order
  = Course.generate_transcript c sort_order.
Proof. apply sorted_idempotent. Qed.

(** When no two assignments of the course have the same score, the
    descending transcript is the ascending one read backwards.  (With equal
    scores it is not: ties keep their insertion order in both.) *)
Theorem generate_transcript_descending_reverse (c : Course.t) :
  NoDup (Assignment.score <$> Course.assignments c) →
  Course.generate_transcript c "descending"
  = reverse (Course.generate_transcript c "ascending").
Proof. apply sorted_descending_reverse. Qed.

Lemma generate_transcript_descending_reverse_witness :
  Course.generate_transcript course_2 "descending"
  = reverse (Course.generate_transcript course_2 "ascending").
Proof.
  apply generate_transcript_descending_reverse.
  apply (bool_decide_unpack _). vm_compute. exact I.
Defined.

Example generate_transcript_ties_not_reversed :
  Course.generate_transcript course_ties "descending"
  ≠ reverse (Course.generate_transcript course_ties "ascending").
Proof. intros H. apply (f_equal (fmap Assignment.name)) in H. discriminate H. Qed.

(** ** Course objects: separate lists, snapshots *)

Lemma alloc_eq (o : Object.obj) (h : Object.store) :
  ∃ l, Object.alloc o h = (l, <[l := o]> h) ∧ h !! l = None.
Proof.
  eexists. split; [reflexivity|]. apply not_elem_of_dom, is_fresh.
Qed.

(** The constructor puts three new objects in the store: the two empty
    lists and the course that refers to them. *)
Lemma init_eq (h : Object.store) (name : string) (total_sessions : Z) :
  ∃ la lt self : Object.loc,
    Object.init name total_sessions h
    = (self,
       <[self := Object.CourseObj name la lt total_sessions]>
         (<[lt := Object.Attendance []]> (<[la := Object.List []]> h)))
    ∧ h !! la = None ∧ h !! lt = None ∧ h !! self = None
    ∧ la ≠ lt ∧ la ≠ self ∧ lt ≠ self.
Proof.
  unfold Object.init.
  destruct (alloc_eq (Object.List []) h) as (la & -> & Hla).
  destruct (alloc_eq (Object.Attendance []) (<[la := Object.List []]> h))
    as (lt & -> & Hlt).
  destruct (alloc_eq (Object.CourseObj name la lt total_sessions)
              (<[lt := Object.Attendance []]> (<[la := Object.List []]> h)))
    as (self & -> & Hself).
  exists la, lt, self. split; [done|].
  apply lookup_insert_None in Hlt as [Hlt ?].
  apply lookup_insert_None in Hself as [Hself ?].
  apply lookup_insert_None in Hself as [Hself ?].
  by split_and!.
Qed.

Lemma generate_transcript_eq (h : Object.store) (self : Object.loc)
    (c : Course.t) (sort_order : string) :
  Object.view h self = Some c →
  ∃ r, Object.generate_transcript self sort_order h
       = Some (r, <[r := Object.List
                           (Course.generate_transcript c sort_order)]> h)
       ∧ h !! r = None.
Proof.
  unfold Object.view, Object.generate_transcript.
  destruct (h !! self) as [[| |n la lt ts]|] eqn:Hself; try done.
  destruct (h !! la) as [[items| |]|] eqn:Hla; try done.
  destruct (h !! lt) as [[|records|]|] eqn:Hlt; try done.
  intros [= <-].
  destruct (alloc_eq (Object.List (Course.generate_transcript
              (Course.mk n items records ts) sort_order)) h) as (r & Hr & ?).
  exists r. split; [|done]. unfold Course.generate_transcript in Hr.
  cbn [Course.assignments] in Hr. by rewrite Hr.
Qed.

(** Every course gets lists of its own: appending to a newly constructed
    course, or marking its attendance, changes no course that was already
    in the store. *)
Theorem new_course_shares_no_list (h : Object.store) (other : Object.loc)
    (c : Course.t) (name : string) (total_sessions : Z)
    (a : Assignment.t) (date status : string) :
  Object.view h other = Some c →
  ∃ h1 h2 : Object.store,
    Object.add_assignment (Object.init name total_sessions h).1 a
      (Object.init name total_sessions h).2 = Some h1
    ∧ Object.mark_attendance (Object.init name total_sessions h).1
        date status h1 = Some h2
    ∧ Object.view h2 (Object.init name total_sessions h).1
      = Some (Course.mark_attendance
                (Course.add_assignment (Course.init name total_sessions) a)
                date status)
    ∧ Object.view h2 other = Some c.
Proof.
  intros Hother.
  destruct (init_eq h name total_sessions)
    as (la & lt & self & -> & Hla & Hlt & Hself & ? & ? & ?).
  cbn [fst snd].
  eexists _, _. split_and!.
  - unfold Object.add_assignment. by simplify_map_eq.
  - unfold Object.mark_attendance. by simplify_map_eq.
  - unfold Object.view. by simplify_map_eq.
  - eapply view_frame; [|exact Hother].
    intros l [o Hl]. assert (l ≠ la ∧ l ≠ lt ∧ l ≠ self) as (? & ? & ?).
    { split_and!; congruence. }
    by simplify_map_eq.
Qed.

Lemma new_course_shares_no_list_witness :
  ∃ h1 h2 : Object.store,
    Object.add_assignment (Object.init "Databases" 7 store_1.2).1
      (Assignment.mk "Quiz" (lit 70) (lit 10) "Formative")
      (Object.init "Databases" 7 store_1.2).2 = Some h1
    ∧ Object.mark_attendance (Object.init "Databases" 7 store_1.2).1
        "Sep 16" "Present" h1 = Some h2
    ∧ Object.view h2 (Object.init "Databases" 7 store_1.2).1
      = Some (Course.mark_attendance
                (Course.add_assignment (Course.init "Databases" 7)
                   (Assignment.mk "Quiz" (lit 70) (lit 10) "Formative"))
                "Sep 16" "Present")
    ∧ Object.view h2 store_1.1
      = Some (Course.mk "Linux"
                [ Assignment.mk "Discussion Board" (lit 100) (lit 20)
                    "Formative";
                  Assignment.mk "General Quiz" (dec 7551 100) (lit 15)
                    "Formative" ]
                [] 10).
Proof.
  apply new_course_shares_no_list. vm_compute. reflexivity.
Defined.

(** A transcript is a snapshot.  An assignment added to the course after
    the transcript was made appears in the course and not in the list
    that was returned. *)
Theorem transcript_is_snapshot (h h1 : Object.store)
    (self r : Object.loc) (c : Course.t) (sort_order : string)
    (a : Assignment.t) :
  Object.view h self = Some c →
  Object.generate_transcript self sort_order h = Some (r, h1) →
  ∃ h2 : Object.store,
    Object.add_assignment self a h1 = Some h2
    ∧ h2 !! r = Some (Object.List (Course.generate_transcript c sort_order))
    ∧ Object.view h2 self = Some (Course.add_assignment c a).
Proof.
  intros Hview Hgt.
  destruct (generate_transcript_eq h self c sort_order Hview)
    as (r' & Hgt' & Hr).
  rewrite Hgt in Hgt'. injection Hgt' as -> ->.
  assert (Object.view
            (<[r' := Object.List (Course.generate_transcript c sort_order)]> h)
            self = Some c) as Hview1.
  { eapply view_frame; [|exact Hview]. intros l [o Hl].
    apply lookup_insert_ne. congruence. }
  destruct (add_assignment_view _ self c a Hview1) as (h2 & Hadd & Hview2).
  exists h2. split_and!; [done| |done].
  unfold Object.add_assignment in Hadd. unfold Object.view in Hview.
  destruct (h !! self) as [[| |n la lt ts]|] eqn:Hself; try done.
  destruct (h !! la) as [[items| |]|] eqn:Hla; try done.
  assert (r' ≠ self) by congruence. assert (r' ≠ la) by congruence.
  rewrite lookup_insert_ne, Hself, lookup_insert_ne, Hla in Hadd by done.
  injection Hadd as <-.
  rewrite lookup_insert_ne by done. apply lookup_insert_eq.
Qed.

Lemma transcript_is_snapshot_witness :
  ∃ h2 : Object.store,
    Object.add_assignment store_1.1
      (Assignment.mk "Quiz" (lit 70) (lit 10) "Formative")
      (<[4%positive :=
           Object.List
             [ Assignment.mk "General Quiz" (dec 7551 100) (lit 15)
                 "Formative";
               Assignment.mk "Discussion Board" (lit 100) (lit 20)
                 "Formative" ]]> store_1.2)
    = Some h2
    ∧ h2 !! 4%positive
      = Some (Object.List
                [ Assignment.mk "General Quiz" (dec 7551 100) (lit 15)
                    "Formative";
                  Assignment.mk "Discussion Board" (lit 100) (lit 20)
                    "Formative" ])
    ∧ Object.view h2 store_1.1
      = Some (Course.mk "Linux"
                [ Assignment.mk "Discussion Board" (lit 100) (lit 20)
                    "Formative";
                  Assignment.mk "General Quiz" (dec 7551 100) (lit 15)
                    "Formative";
                  Assignment.mk "Quiz" (lit 70) (lit 10) "Formative" ]
                [] 10).
Proof.
  apply (transcript_is_snapshot store_1.2 _ store_1.1 4%positive
           (Course.mk "Linux"
              [ Assignment.mk "Discussion Board" (lit 100) (lit 20)
                  "Formative";
                Assignment.mk "General Quiz" (dec 7551 100) (lit 15)
                  "Formative" ]
              [] 10) "ascending").
  - vm_compute. reflexivity.
  - vm_compute. reflexivity.
Defined.

(** ** The report: failure, attendance note, detailed table *)

Lemma string_app_empty_r (s : string) : s +:+ "" = s.
Proof. induction s as [|a s IH]; [done|]. exact (f_equal (String a) IH). Qed.

Lemma occurs_in_refl (n : string) : Layout.occurs_in n n.
Proof. exists "", "". by rewrite string_app_empty_r. Qed.

Lemma occurs_in_app_l (n s x : string) :
  Layout.occurs_in n s → Layout.occurs_in n (s +:+ x).
Proof.
  intros (pre & post & ->). exists pre, (post +:+ x).
  by rewrite !string_app_assoc.
Qed.

Lemma occurs_in_app_r (n s x : string) :
  Layout.occurs_in n s → Layout.occurs_in n (x +:+ s).
Proof.
  intros (pre & post & ->). exists (x +:+ pre), post.
  by rewrite !string_app_assoc.
Qed.

Lemma attendance_100_iff (n d : Z) :
  d ≠ 0%Z → Qc_of_Z n / Qc_of_Z d * lit 100 = lit 100 ↔ n = d.
Proof.
  intros Hd.
  assert (Qc_of_Z d ≠ 0) as Hd'.
  { rewrite <-Z2Qc_inj_0. by intros ?%Z2Qc_inj. }
  split.
  - intros H. apply Z2Qc_inj.
    assert (Qc_of_Z n / Qc_of_Z d = 1) as H1.
    { trans (Qc_of_Z n / Qc_of_Z d * lit 100 * / lit 100).
      - rewrite <-Qcmult_assoc, Qcmult_inv_r by apply lit_100_neq_0.
        by rewrite Qcmult_1_r.
      - rewrite H. apply Qcmult_inv_r, lit_100_neq_0. }
    rewrite <-(Qcmult_1_l (Qc_of_Z d)), <-H1. unfold Qcdiv.
    by rewrite <-Qcmult_assoc, Qcmult_inv_l, Qcmult_1_r.
  - intros ->. unfold Qcdiv. by rewrite Qcmult_inv_r, Qcmult_1_l.
Qed.

Section report_layout.
Context (fmt_2f str : Qc → string)
        (tabulate : list (list string) → list string → string).

(** The note that the report gives on the attendance of a course. *)
Let note (c : Course.t) : string :=
  if decide (Spec.present_count c = Course.total_sessions c)
  then Layout.good_standing else Layout.warning.

Lemma course_body_ok (sort_order : string) (st : Student.locals)
    (c : Course.t) :
  Course.total_sessions c ≠ 0%Z →
  ∃ r : string,
    Student.course_body fmt_2f str tabulate sort_order st c
    = Ok (Student.mk_locals r
            (Student.table_data st ++ Layout.detailed_rows fmt_2f str c)
            (Student.total_weighted_score_all_courses st
             + Spec.weighted_sum (Course.assignments c))
            (Student.total_weight_all_courses st
             + Spec.weight_sum (Course.assignments c)))
    ∧ (∀ n, Layout.occurs_in n (Student.report st) → Layout.occurs_in n r)
    ∧ Layout.occurs_in (note c) r.
Proof.
  intros Hts. destruct st as [r0 td0 tws0 tw0]. unfold Student.course_body.
  pose proof (check_progression_ok c) as Hp. cbn zeta in Hp. rewrite Hp.
  cbn [mbind result_bind].
  rewrite calculate_attendance_nonzero by done. cbn [mbind result_bind].
  cbn zeta.
  erewrite (rows_loop
    (λ ws a, [ Course.name c; Assignment.name a;
               str (Assignment.score a) +:+ "%";
               str (Assignment.weight a) +:+ "%";
               fmt_2f ws +:+ "%" ])); cycle 1.
  { intros r td tws tw a. rewrite get_weighted_score_ok. reflexivity. }
  eexists. split; [reflexivity|].
  cbn [Student.report]. unfold note.
  destruct (Course.get_resubmission_candidates c);
    (destruct (decide (_ = lit 100)) as [H100|H100];
     [rewrite decide_True by (by apply (attendance_100_iff _ _ Hts))
     |rewrite decide_False by (by rewrite <-(attendance_100_iff _ _ Hts))]);
    (split;
     [intros n Hn; repeat apply occurs_in_app_l; exact Hn
     |do 3 apply occurs_in_app_l; apply occurs_in_app_r, occurs_in_refl]).
Qed.

Lemma courses_loop_ok (sort_order : string) (cs : list Course.t)
    (st : Student.locals) :
  Forall (λ c, Course.total_sessions c ≠ 0%Z) cs →
  ∃ r : string,
    for_in cs (Student.course_body fmt_2f str tabulate sort_order) st
    = Ok (Student.mk_locals r
            (Student.table_data st
             ++ concat (Layout.detailed_rows fmt_2f str <$> cs))
            (Student.total_weighted_score_all_courses st
             + Spec.weighted_sum (concat (Course.assignments <$> cs)))
            (Student.total_weight_all_courses st
             + Spec.weight_sum (concat (Course.assignments <$> cs))))
    ∧ (∀ n, Layout.occurs_in n (Student.report st) → Layout.occurs_in n r)
    ∧ (∀ c, c ∈ cs → Layout.occurs_in (note c) r).
Proof.
  intros Hcs. revert st. induction Hcs as [|c cs Hc _ IH]; intros st.
  - destruct st as [r td tws tw]. exists r. simpl.
    unfold Spec.weight_sum, Spec.weighted_sum. simpl.
    rewrite app_nil_r, !Qcplus_0_r. split_and!; [done..|].
    intros c Hc. by inv Hc.
  - cbn [for_in].
    destruct (course_body_ok sort_order st c Hc) as (r1 & -> & Hkeep1 & Hn1).
    cbn [mbind result_bind].
    destruct (IH (Student.mk_locals r1
      (Student.table_data st ++ Layout.detailed_rows fmt_2f str c)
      (Student.total_weighted_score_all_courses st
       + Spec.weighted_sum (Course.assignments c))
      (Student.total_weight_all_courses st
       + Spec.weight_sum (Course.assignments c))))
      as (r & -> & Hkeep & Hn).
    cbn [Student.report Student.table_data
         Student.total_weighted_score_all_courses
         Student.total_weight_all_courses] in *.
    exists r. split_and!.
    + rewrite !fmap_cons, !concat_cons, weight_sum_app, weighted_sum_app.
      rewrite <-app_assoc. f_equal. f_equal; ring.
    + auto.
    + intros c' [->|Hc']%elem_of_cons; auto.
Qed.

(** The report either is produced, with the layout of the source, or the
    attendance of a course without sessions raises. *)
Lemma generate_report_cases (s : Student.t) (sort_order : string) :
  if decide (Forall (λ c, Course.total_sessions c ≠ 0%Z) (Student.courses s))
  then
    ∃ r middle : string,
      Student.generate_report fmt_2f str tabulate s sort_order
      = Ok ((r +:+ middle)
            +:+ tabulate
                  (concat (Layout.detailed_rows fmt_2f str
                           <$> Student.courses s))
                  [ "Course"; "Assignment"; "Score"; "Weight";
                    "Weighted Score" ])
      ∧ (∀ c, c ∈ Student.courses s → Layout.occurs_in (note c) r)
  else
    Student.generate_report fmt_2f str tabulate s sort_order
    = Raise ZeroDivisionError.
Proof.
  unfold Student.generate_report.
  set (st0 := Student.mk_locals _ [] 0 0).
  destruct (decide (Forall (λ c, Course.total_sessions c ≠ 0%Z)
                      (Student.courses s))) as [Hall|Hsome].
  - destruct (courses_loop_ok sort_order (Student.courses s) st0 Hall)
      as (r & -> & _ & Hn).
    cbn [mbind result_bind]. rewrite calculate_gpa_ok.
    cbn [mbind result_bind]. rewrite guarded_quotient.
    cbn [mbind result_bind]. cbn zeta.
    eexists r, _. split; [|done].
    do 2 f_equal. rewrite !(string_app_assoc r). reflexivity.
  - pose proof (courses_loop fmt_2f str tabulate sort_order
                  (Student.courses s) st0) as Hloop.
    rewrite decide_False in Hloop by done. by rewrite Hloop.
Qed.
End report_layout.

(** [generate_report] raises exactly when some course of the student has
    zero sessions, and then it raises [ZeroDivisionError]: one such course
    is enough to lose the report of all courses, whatever the sort order
    and the renderers. *)
Theorem generate_report_raises_iff
    (fmt_2f str : Qc → string)
    (tabulate : list (list string) → list string → string)
    (s : Student.t) (sort_order : string) (e : exn) :
  Student.generate_report fmt_2f str tabulate s sort_order = Raise e
  ↔ Exists (λ c, Course.total_sessions c = 0%Z) (Student.courses s)
    ∧ e = ZeroDivisionError.
Proof.
  pose proof (generate_report_cases fmt_2f str tabulate s sort_order) as Hc.
  destruct (decide (Forall (λ c, Course.total_sessions c ≠ 0%Z)
                      (Student.courses s))) as [Hall|Hsome].
  - destruct Hc as (r & middle & -> & _). split; [done|].
    intros [Hex _]. apply Exists_exists in Hex as (c & Hc & Hts).
    rewrite Forall_forall in Hall. by apply Hall in Hc.
  - rewrite Hc. split.
    + intros [= <-]. split; [|done].
      apply not_Forall_Exists in Hsome; [|apply _].
      eapply Exists_impl; [exact Hsome|]. intros c Hts.
      by destruct (decide (Course.total_sessions c = 0%Z)).
    + by intros [_ ->].
Qed.

(** The detailed table that ends the report has one row for every
    assignment of every course, in the order of the courses and of
    insertion; the sort order of the transcripts does not apply to it. *)
Theorem generate_report_detailed_table
    (fmt_2f str : Qc → string)
    (tabulate : list (list string) → list string → string)
    (s : Student.t) (sort_order report : string) :
  Student.generate_report fmt_2f str tabulate s sort_order = Ok report →
  ∃ before : string,
    report
    = before
      +:+ tabulate
            (concat (Layout.detailed_rows fmt_2f str <$> Student.courses s))
            [ "Course"; "Assignment"; "Score"; "Weight"; "Weighted Score" ].
Proof.
  intros Hr.
  pose proof (generate_report_cases fmt_2f str tabulate s sort_order) as Hc.
  destruct (decide _) as [Hall|Hsome]; [|congruence].
  destruct Hc as (r & middle & Hc & _). rewrite Hc in Hr.
  injection Hr as <-. by eexists.
Qed.

Lemma generate_report_detailed_table_witness :
  ∃ before : string,
    Student.generate_report show show grid student "descending"
    = Ok (before
          +:+ grid
                (concat (Layout.detailed_rows show show
                         <$> Student.courses student))
                [ "Course"; "Assignment"; "Score"; "Weight";
                  "Weighted Score" ]).
Proof.
  pose proof (generate_report_cases show show grid student "descending")
    as Hc.
  rewrite decide_True in Hc by (repeat constructor; discriminate).
  destruct Hc as (r & middle & Hc & _).
  destruct (generate_report_detailed_table show show grid student
              "descending" _ Hc) as [before Hb].
  exists before. rewrite Hc. f_equal. exact Hb.
Defined.

(** The report calls the attendance of a course in good standing exactly
    when the number of "Present" records equals the configured number of
    sessions.  Every other course, one with more "Present" records than
    sessions included, gets the warning that its attendance is below
    100%. *)
Theorem generate_report_attendance_note
    (fmt_2f str : Qc → string)
    (tabulate : list (list string) → list string → string)
    (s : Student.t) (sort_order report : string) (c : Course.t) :
  Student.generate_report fmt_2f str tabulate s sort_order = Ok report →
  c ∈ Student.courses s →
  Layout.occurs_in
    (if decide (Spec.present_count c = Course.total_sessions c)
     then "Attendance is in good standing (100%)." +:+ nl
     else "Warning: Attendance is below 100%. "
          +:+ "The student should attend more classes." +:+ nl)
    report.
Proof.
  intros Hr Hin.
  pose proof (generate_report_cases fmt_2f str tabulate s sort_order) as Hc.
  destruct (decide _) as [Hall|Hsome]; [|congruence].
  destruct Hc as (r & middle & Hc & Hnote). rewrite Hc in Hr.
  injection Hr as <-. do 2 apply occurs_in_app_l. by apply Hnote.
Qed.

(** A course of 7 sessions with 8 "Present" records. *)
Lemma generate_report_attendance_note_witness :
  ∃ report : string,
    Student.generate_report show show grid
      (Student.mk "ISHIMWE Bruno" "i.bruno@alustudent.com"
         [Course.mark_attendance course_1 "Sep 23" "Present"])
      "ascending"
    = Ok report
    ∧ Layout.occurs_in
        ("Warning: Attendance is below 100%. "
         +:+ "The student should attend more classes." +:+ nl)
        report.
Proof.
  pose proof (generate_report_cases show show grid
                (Student.mk "ISHIMWE Bruno" "i.bruno@alustudent.com"
                   [Course.mark_attendance course_1 "Sep 23" "Present"])
                "ascending") as Hc.
  rewrite decide_True in Hc by (repeat constructor; discriminate).
  destruct Hc as (r & middle & Hc & _).
  eexists. split; [exact Hc|].
  apply (generate_report_attendance_note show show grid _ _ _
           (Course.mark_attendance course_1 "Sep 23" "Present") Hc).
  apply list_elem_of_singleton. reflexivity.
Defined.

(** ** Sending the report *)

(** The only exception that leaves [send_report_to_parent] is the one of
    [generate_report], which is called before the [try] block: it raises
    exactly when a course has zero sessions.  No failure of the mail
    library reaches the caller. *)
Theorem send_report_to_parent_raises_iff
    (fmt_2f str : Qc → string)
    (tabulate : list (list string) → list string → string)
    (as_string : list (string * string) → string → string)
    (smtp : list Delivery.smtp_call → option string)
    (s : Student.t)
    (parent_email sender_email app_password sort_order : string) (e : exn) :
  Delivery.send_report_to_parent fmt_2f str tabulate as_string smtp s
    parent_email sender_email app_password sort_order
  = Raise e
  ↔ Exists (λ c, Course.total_sessions c = 0%Z) (Student.courses s)
    ∧ e = ZeroDivisionError.
Proof.
  unfold Delivery.send_report_to_parent.
  pose proof (generate_report_cases fmt_2f str tabulate s sort_order) as Hc.
  destruct (decide (Forall (λ c, Course.total_sessions c ≠ 0%Z)
                      (Student.courses s))) as [Hall|Hsome].
  - destruct Hc as (r & middle & -> & _). cbn [mbind result_bind].
    split.
    + intros Hr. exfalso. revert Hr. cbv zeta.
      match goal with
      | |- context [?attempt smtp []] =>
          destruct (attempt smtp []) as [made [e'|line]]
      end; discriminate.
    + intros [Hex _]. apply Exists_exists in Hex as (c & Hc & Hts).
      rewrite Forall_forall in Hall. by apply Hall in Hc.
  - rewrite Hc. cbn [mbind result_bind]. split.
    + intros [= <-]. split; [|done].
      apply not_Forall_Exists in Hsome; [|apply _].
      eapply Exists_impl; [exact Hsome|]. intros c Hts.
      by destruct (decide (Course.total_sessions c = 0%Z)).
    + by intros [_ ->].
Qed.

(** When the report is produced, the method makes the five calls of the
    script in order and stops at the first one that raises.  It prints one
    line: the failure with the text of the exception, or the confirmation
    when all five calls, [quit] included, have returned.  After a failure
    no later call is made, so the connection is not closed. *)
Theorem send_report_to_parent_effects
    (fmt_2f str : Qc → string)
    (tabulate : list (list string) → list string → string)
    (as_string : list (string * string) → string → string)
    (smtp : list Delivery.smtp_call → option string)
    (s : Student.t)
    (parent_email sender_email app_password sort_order report : string) :
  Student.generate_report fmt_2f str tabulate s sort_order = Ok report →
  let msg :=
    as_string
      [ ("From", sender_email); ("To", parent_email);
        ("Subject", "Student Report for " +:+ Student.name s) ]
      report in
  let script :=
    [ Delivery.SMTP "smtp.gmail.com" 587;
      Delivery.starttls;
      Delivery.login sender_email app_password;
      Delivery.sendmail sender_email parent_email msg;
      Delivery.quit ] in
  ∃ n : nat,
    (1 ≤ n ≤ 5)%nat
    ∧ (∀ k, (1 ≤ k < n)%nat → smtp (take k script) = None)
    ∧ (smtp (take n script) = None → n = 5)
    ∧ Delivery.send_report_to_parent fmt_2f str tabulate as_string smtp s
        parent_email sender_email app_password sort_order
      = Ok (Delivery.mk_effects (take n script)
              [ match smtp (take n script) with
                | Some e => "Failed to send email: " +:+ e
                | None => "Report sent to " +:+ parent_email
                end ]).
Proof.
  intros Hr. cbv zeta. unfold Delivery.send_report_to_parent.
  rewrite Hr. cbn [mbind result_bind]. cbv zeta.
  cbv [mbind mret Delivery.attempt_bind Delivery.attempt_ret Delivery.call
       app].
  set (msg := as_string _ report).
  destruct (smtp [Delivery.SMTP "smtp.gmail.com" 587]) as [e1|] eqn:H1.
  { exists 1%nat. cbv [take]. rewrite H1.
    split_and!; [lia|lia|intros; lia|done|done]. }
  destruct (smtp [Delivery.SMTP "smtp.gmail.com" 587; Delivery.starttls])
    as [e2|] eqn:H2.
  { exists 2%nat. cbv [take]. rewrite H2.
    split_and!; [lia|lia| |done|done].
    intros k ?. assert (k = 1%nat) as -> by lia. done. }
  destruct (smtp [Delivery.SMTP "smtp.gmail.com" 587; Delivery.starttls;
                  Delivery.login sender_email app_password])
    as [e3|] eqn:H3.
  { exists 3%nat. cbv [take]. rewrite H3.
    split_and!; [lia|lia| |done|done].
    intros k ?. assert (k = 1 ∨ k = 2)%nat as [-> | ->] by lia; done. }
  destruct (smtp [Delivery.SMTP "smtp.gmail.com" 587; Delivery.starttls;
                  Delivery.login sender_email app_password;
                  Delivery.sendmail sender_email parent_email msg])
    as [e4|] eqn:H4.
  { exists 4%nat. cbv [take]. rewrite H4.
    split_and!; [lia|lia| |done|done].
    intros k ?. assert (k = 1 ∨ k = 2 ∨ k = 3)%nat as [-> | [-> | ->]] by lia;
      done. }
  exists 5%nat. cbv [take].
  destruct (smtp [Delivery.SMTP "smtp.gmail.com" 587; Delivery.starttls;
                  Delivery.login sender_email app_password;
                  Delivery.sendmail sender_email parent_email msg;
                  Delivery.quit])
    as [e5|] eqn:H5;
    (split_and!; [lia|lia| |done|done];
     intros k ?;
     assert (k = 1 ∨ k = 2 ∨ k = 3 ∨ k = 4)%nat as [-> | [-> | [-> | ->]]] by lia;
     done).
Qed.

Lemma send_report_to_parent_effects_witness :
  ∃ msg : string,
    Delivery.send_report_to_parent show show grid mime smtp_accepts student
      "ishimwebruno331@gmail.com" "i.bruno@alustudent.com" "app password"
      "ascending"
    = Ok (Delivery.mk_effects
            [ Delivery.SMTP "smtp.gmail.com" 587;
              Delivery.starttls;
              Delivery.login "i.bruno@alustudent.com" "app password";
              Delivery.sendmail "i.bruno@alustudent.com"
                "ishimwebruno331@gmail.com" msg;
              Delivery.quit ]
            ["Report sent to ishimwebruno331@gmail.com"]).
Proof.
  pose proof (generate_report_cases show show grid student "ascending") as Hc.
  rewrite decide_True in Hc by (repeat constructor; discriminate).
  destruct Hc as (r & middle & Hc & _).
  destruct (send_report_to_parent_effects show show grid mime smtp_accepts
              student "ishimwebruno331@gmail.com" "i.bruno@alustudent.com"
              "app password" "ascending" _ Hc)
    as (n & _ & _ & Hlast & Hsend).
  assert (n = 5%nat) as -> by (by apply Hlast).
  eexists. rewrite Hsend. reflexivity.
Defined.

(** The first course of the script, built by the calls the script makes. *)
Example course_1_as_built :
  foldl (λ c '(date, status), Course.mark_attendance c date status)
    (foldl Course.add_assignment
       (Course.init "Introduction to Programming and Databases" 7)
       [ Assignment.mk "Python - Hello, World" (lit 100) (lit 10) "Formative";
         Assignment.mk "Python - Inheritance" (dec 4059 100) (lit 20)
           "Formative";
         Assignment.mk "Python - Data Structures" (lit 100) (lit 30)
           "Summative" ])
    [ ("Sep 16", "Present"); ("Sep 17", "Present"); ("Sep 18", "Present");
      ("Sep 19", "Present"); ("Sep 20", "Present"); ("Sep 21", "Present");
      ("Sep 22", "Present") ]
  = course_1.
Proof. reflexivity. Qed.
